(** * CogmemAi Python SDK client: a shallow embedding of [cogmemai/client.py]

    The client is a thin layer over the [requests] library: a constructor
    that validates the API key and stores the configuration, one generic
    [_request] helper that sends a request and normalises the response,
    four verb wrappers, and the domain operations, each of which builds a
    payload dictionary and calls a wrapper.

    Python values are modelled by [pyval], dictionaries by [gmap string],
    exceptions by [exn], and a method of the client by a function in the
    monad [M], which threads the client object and may raise.

    Vocabulary: the specification calls the source's [CogmemAiError]
    "ApiError" and the [ValueError] raised by the constructor
    "ConfigurationError". *)

From Stdlib Require Import ZArith String Ascii SpecFloat.
From stdpp Require Import gmap strings list fin_maps pretty.

#[local] Set Warnings "-register-all".
#[local] Open Scope string_scope.
#[local] Open Scope Z_scope.

(** ** Python values *)

(** The values a JSON document decodes to, which are also the values the
    client puts into payloads and keyword arguments. *)
Inductive pyval : Type :=
| PyNone
| PyBool (b : bool)
| PyInt (n : Z)
| PyFloat (f : spec_float)
| PyStr (s : string)
| PyList (l : list pyval)
| PyDict (d : gmap string pyval).

(** [bool(v)]: what [if v:] and [v or w] test. *)
Definition truthy (v : pyval) : bool :=
  match v with
  | PyNone => false
  | PyBool b => b
  | PyInt n => negb (n =? 0)
  | PyFloat (S754_zero _) => false
  | PyFloat _ => true
  | PyStr s => negb (String.eqb s "")
  | PyList l => negb (Nat.eqb (length l) 0)
  | PyDict d => negb (Nat.eqb (size d) 0)
  end.

(** [v or w], for [w] an expression that cannot raise. *)
Definition py_or (v w : pyval) : pyval := if truthy v then v else w.

(** [type(v).__name__], as it appears in the interpreter's messages. *)
Definition type_name (v : pyval) : string :=
  match v with
  | PyNone => "NoneType"
  | PyBool _ => "bool"
  | PyInt _ => "int"
  | PyFloat _ => "float"
  | PyStr _ => "str"
  | PyList _ => "list"
  | PyDict _ => "dict"
  end.

(** [bool(s)] for a string argument: [if s:] is taken iff [s] is not empty. *)
Definition nonempty (s : string) : bool := negb (String.eqb s "").

(** [d.setdefault(k, v)], for its effect on [d]. *)
Definition setdefault (k : string) (v : pyval) (d : gmap string pyval)
  : gmap string pyval :=
  match d !! k with
  | Some _ => d
  | None => <[k := v]> d
  end.

(** [str(b).lower()] for a bool. *)
Definition str_lower_bool (b : bool) : string := if b then "true" else "false".

(** A [dict | None] argument as a value. *)
Definition of_optional_dict (o : option (gmap string pyval)) : pyval :=
  match o with
  | Some d => PyDict d
  | None => PyNone
  end.

(** ** Strings *)

(** Membership of a character in the [chars] argument of [rstrip]. *)
Fixpoint char_in (a : ascii) (chars : string) : bool :=
  match chars with
  | EmptyString => false
  | String c rest => Ascii.eqb a c || char_in a rest
  end.

(** [s.rstrip(chars)]: [s] without its longest suffix made of characters
    of [chars]. *)
Fixpoint rstrip (chars : string) (s : string) : string :=
  match s with
  | EmptyString => EmptyString
  | String a rest =>
      match rstrip chars rest with
      | EmptyString => if char_in a chars then EmptyString else String a EmptyString
      | String _ _ as kept => String a kept
      end
  end.

(** [n] copies of one character. *)
Fixpoint replicate_char (n : nat) (a : ascii) : string :=
  match n with
  | O => EmptyString
  | S k => String a (replicate_char k a)
  end.

(** ** Exceptions, requests and responses *)

Inductive exn : Type :=
| ValueError (msg : string)
| AttributeError (msg : string)
| CogmemAiError (message : pyval) (status_code : option Z)
| TransportError (detail : string).

Inductive outcome (A : Type) : Type :=
| Returns (a : A)
| Raises (e : exn).
Arguments Returns {A} a.
Arguments Raises {A} e.

(** One call of [Session.request]: the verb, the URL, the session headers
    attached to it and the keyword arguments it was given. *)
Record Request : Type := mkRequest {
  req_method : string;
  req_url : string;
  req_headers : gmap string string;
  req_kwargs : gmap string pyval
}.

(** What the client reads of a [requests.Response]: its status code, its
    body as text, and [json], the outcome of [resp.json()]: the decoded
    body, or [None] when the body does not decode and the call raises
    [ValueError]. *)
Record Response : Type := mkResponse {
  status_code : Z;
  text : string;
  json : option pyval
}.

(** A [requests.Session]: its default headers, and the requests it has
    sent so far, oldest first. *)
Record Session : Type := mkSession {
  headers : gmap string string;
  sent : list Request
}.

(** ** The client object *)

Record CogmemAi : Type := mkCogmemAi {
  api_key : string;
  base_url : string;
  timeout : Z;
  _session : Session
}.

Definition DEFAULT_BASE_URL : string :=
  "https://hifriendbot.com/wp-json/hifriendbot/v1".

(** A method body: it reads and may update the object, and returns or
    raises. *)
Definition M (A : Type) : Type := CogmemAi -> outcome A * CogmemAi.

Definition ret {A : Type} (a : A) : M A := fun self => (Returns a, self).

Definition raise {A : Type} (e : exn) : M A := fun self => (Raises e, self).

Definition bind {A B : Type} (m : M A) (k : A -> M B) : M B :=
  fun self =>
    match m self with
    | (Returns a, self') => k a self'
    | (Raises e, self') => (Raises e, self')
    end.

(** [self.f] *)
Definition attr {A : Type} (f : CogmemAi -> A) : M A :=
  fun self => (Returns (f self), self).

(** An expression that may raise, inside a method. *)
Definition lift {A : Type} (o : outcome A) : M A := fun self => (o, self).

Notation "x <- m ;; k" := (bind m (fun x => k))
  (at level 100, m at next level, right associativity).

(** [data.get(key)]: only a dict has the method; a missing key gives
    [None]. *)
Definition data_get (data : pyval) (key : string) : outcome pyval :=
  match data with
  | PyDict d => Returns (default PyNone (d !! key))
  | other =>
      Raises (AttributeError
                ("'" +:+ type_name other +:+ "' object has no attribute 'get'"))
  end.

Section Client.

(** The [requests] library and the remote service behind it: the
    response, or the transport failure, that a request meets. *)
Variable transport : Request -> outcome Response.

(** The headers a fresh [requests.Session()] starts with. *)
Variable library_headers : gmap string string.

(** [self._session.request(method, url, **kwargs)]: one round trip; the
    session's headers go with the request and stay as they are. *)
Definition session_request (method url : string)
    (kwargs : gmap string pyval) : M Response :=
  fun self =>
    let s := _session self in
    let req := mkRequest method url (headers s) kwargs in
    (transport req,
     mkCogmemAi (api_key self) (base_url self) (timeout self)
                (mkSession (headers s) (sent s ++ [req])%list)).

(** [CogmemAi.__init__] *)
Definition __init__ (api_key : string) (base_url : option string)
    (timeout : Z) : outcome CogmemAi :=
  if negb (nonempty api_key) || negb (String.prefix "cm_" api_key) then
    Raises (ValueError "API key must start with 'cm_'")
  else
    let chosen :=
      match base_url with
      | Some b => if nonempty b then b else DEFAULT_BASE_URL
      | None => DEFAULT_BASE_URL
      end in
    Returns
      (mkCogmemAi api_key (rstrip "/" chosen) timeout
         (mkSession
            (<["Authorization" := "Bearer " +:+ api_key]>
               (<["Content-Type" := "application/json"]> library_headers))
            [])).

(** [CogmemAi._request] *)
Definition _request (method path : string) (kwargs : gmap string pyval)
    : M pyval :=
  root <- attr base_url ;;
  let url := root +:+ "/cogmemai/" +:+ path in
  t <- attr timeout ;;
  let kwargs := setdefault "timeout" (PyInt t) kwargs in
  resp <- session_request method url kwargs ;;
  match json resp with
  | None =>
      raise (CogmemAiError
               (PyStr ("Invalid JSON response: " +:+ text resp))
               (Some (status_code resp)))
  | Some data =>
      if 400 <=? status_code resp then
        e <- lift (data_get data "error") ;;
        msg <- (if truthy e then ret e
                else (m <- lift (data_get data "message") ;;
                      ret (py_or m (PyStr (text resp))))) ;;
        raise (CogmemAiError msg (Some (status_code resp)))
      else
        ret data
  end.

Definition _get (path : string) (params : option (gmap string pyval))
    : M pyval :=
  _request "GET" path {["params" := of_optional_dict params]}.

Definition _post (path : string) (data : option (gmap string pyval))
    : M pyval :=
  _request "POST" path {["json" := of_optional_dict data]}.

Definition _patch (path : string) (data : option (gmap string pyval))
    : M pyval :=
  _request "PATCH" path {["json" := of_optional_dict data]}.

Definition _delete (path : string) : M pyval :=
  _request "DELETE" path ∅.

(** *** Core memory *)

Definition save_memory (content memory_type category subject : string)
    (importance : Z) (scope project_id : string) : M pyval :=
  _post "store"
    (Some
       (<["content" := PyStr content]>
          (<["memory_type" := PyStr memory_type]>
             (<["category" := PyStr category]>
                (<["subject" := PyStr subject]>
                   (<["importance" := PyInt importance]>
                      (<["scope" := PyStr scope]>
                         (<["project_id" := PyStr project_id]> ∅)))))))).

Definition recall_memories (query : string) (limit : Z)
    (memory_type scope : string) : M pyval :=
  let payload : gmap string pyval :=
    <["query" := PyStr query]>
      (<["limit" := PyInt limit]> (<["scope" := PyStr scope]> ∅)) in
  let payload :=
    if nonempty memory_type
    then <["memory_type" := PyStr memory_type]> payload else payload in
  _post "recall" (Some payload).

Definition extract_memories (user_message assistant_response
    previous_context : string) : M pyval :=
  let payload : gmap string pyval :=
    <["user_message" := PyStr user_message]> ∅ in
  let payload :=
    if nonempty assistant_response
    then <["assistant_response" := PyStr assistant_response]> payload
    else payload in
  let payload :=
    if nonempty previous_context
    then <["previous_context" := PyStr previous_context]> payload
    else payload in
  _post "extract" (Some payload).

Definition get_project_context (project_id : string)
    (include_global : bool) (context : string) : M pyval :=
  let params : gmap string pyval :=
    <["include_global" := PyStr (str_lower_bool include_global)]> ∅ in
  let params :=
    if nonempty project_id
    then <["project_id" := PyStr project_id]> params else params in
  let params :=
    if nonempty context
    then <["context" := PyStr context]> params else params in
  _get "context" (Some params).

Definition list_memories (memory_type category scope : string)
    (limit offset : Z) : M pyval :=
  let params : gmap string pyval :=
    <["limit" := PyInt limit]>
      (<["offset" := PyInt offset]> (<["scope" := PyStr scope]> ∅)) in
  let params :=
    if nonempty memory_type
    then <["memory_type" := PyStr memory_type]> params else params in
  let params :=
    if nonempty category
    then <["category" := PyStr category]> params else params in
  _get "memories" (Some params).

Definition update_memory (memory_id : Z) (content : string)
    (importance : option Z) (scope : string) : M pyval :=
  let payload : gmap string pyval := ∅ in
  let payload :=
    if nonempty content
    then <["content" := PyStr content]> payload else payload in
  let payload :=
    match importance with
    | Some i => <["importance" := PyInt i]> payload
    | None => payload
    end in
  let payload :=
    if nonempty scope
    then <["scope" := PyStr scope]> payload else payload in
  _patch ("memory/" +:+ pretty memory_id) (Some payload).

Definition delete_memory (memory_id : Z) : M pyval :=
  _delete ("memory/" +:+ pretty memory_id).

Definition get_usage : M pyval := _get "usage" None.

(** *** Documents and sessions *)

Definition ingest_document (text document_type project_id : string)
    : M pyval :=
  let payload : gmap string pyval := <["text" := PyStr text]> ∅ in
  let payload :=
    if nonempty document_type
    then <["document_type" := PyStr document_type]> payload
    else payload in
  let payload :=
    if nonempty project_id
    then <["project_id" := PyStr project_id]> payload else payload in
  _post "ingest" (Some payload).

Definition save_session_summary (summary project_id : string) : M pyval :=
  let payload : gmap string pyval := <["summary" := PyStr summary]> ∅ in
  let payload :=
    if nonempty project_id
    then <["project_id" := PyStr project_id]> payload else payload in
  _post "session-summary" (Some payload).

(** *** Import, export, versions *)

Definition export_memories : M pyval := _get "export" None.

Definition import_memories (memories : list pyval) : M pyval :=
  _post "import" (Some (<["memories" := PyList memories]> ∅)).

Definition get_memory_versions (memory_id : Z) : M pyval :=
  _get ("memory/" +:+ pretty memory_id +:+ "/versions") None.

(** *** Team and collaboration *)

Definition get_team_members (project_id : string) : M pyval :=
  let params : gmap string pyval := ∅ in
  let params :=
    if nonempty project_id
    then <["project_id" := PyStr project_id]> params else params in
  _get "team/members" (Some params).

Definition invite_team_member (email project_id role : string) : M pyval :=
  _post "team/invite"
    (Some
       (<["email" := PyStr email]>
          (<["project_id" := PyStr project_id]>
             (<["role" := PyStr role]> ∅)))).

Definition remove_team_member (member_id : Z) : M pyval :=
  _delete ("team/remove/" +:+ pretty member_id).

(** *** Memory relationships and promotion *)

Definition link_memories (memory_id related_memory_id : Z)
    (relationship_type : string) : M pyval :=
  _post ("memory/" +:+ pretty memory_id +:+ "/link")
    (Some
       (<["related_memory_id" := PyInt related_memory_id]>
          (<["relationship_type" := PyStr relationship_type]> ∅))).

Definition get_memory_links (memory_id : Z) : M pyval :=
  _get ("memory/" +:+ pretty memory_id +:+ "/links") None.

Definition get_promotion_candidates : M pyval :=
  _get "promotion-candidates" None.

Definition promote_to_global (memory_id : Z) : M pyval :=
  _post ("memory/" +:+ pretty memory_id +:+ "/promote") (Some ∅).

End Client.

(** ** Notions used by the statements *)

(** The request that [_request] hands to the session when it is called on
    [self]; [_request_trace] below shows that this is the request sent. *)
Definition outgoing (self : CogmemAi) (method path : string)
    (kwargs : gmap string pyval) : Request :=
  mkRequest method (base_url self +:+ "/cogmemai/" +:+ path)
    (headers (_session self))
    (setdefault "timeout" (PyInt (timeout self)) kwargs).

(** The stored configuration of a client: the credential, the base URL,
    the timeout and the headers attached to every request. *)
Definition config (self : CogmemAi)
  : string * string * Z * gmap string string :=
  (api_key self, base_url self, timeout self, headers (_session self)).

(** A method body that leaves the configuration as it found it. *)
Definition keeps_config {A : Type} (m : M A) : Prop :=
  forall self, config (snd (m self)) = config self.

(** One call of the generic request operation, as data. *)
Record Call : Type := mkCall {
  call_method : string;
  call_path : string;
  call_kwargs : gmap string pyval
}.

(** The client after a sequence of calls of [_request], whatever each of
    them returned or raised. *)
Fixpoint after_calls (transport : Request -> outcome Response)
    (calls : list Call) (self : CogmemAi) : CogmemAi :=
  match calls with
  | [] => self
  | c :: rest =>
      after_calls transport rest
        (snd (_request transport (call_method c) (call_path c)
                (call_kwargs c) self))
  end.

(** [s] ends with the character [a]. *)
Definition ends_with (s : string) (a : ascii) : Prop :=
  exists front, s = front +:+ String a EmptyString.

(** A double quote, and a JSON string literal without escapes. *)
Definition dquote : string := String (ascii_of_nat 34) EmptyString.

Definition quoted (s : string) : string := dquote +:+ s +:+ dquote.

(** *** Sample data *)

Definition sample_client : CogmemAi :=
  mkCogmemAi "cm_test" "https://x/api" 30
    (mkSession
       (<["Authorization" := "Bearer cm_test"]>
          (<["Content-Type" := "application/json"]> ∅))
       []).

(** A transport that answers every request with [resp]. *)
Definition answering (resp : Response) : Request -> outcome Response :=
  fun _ => Returns resp.

(** 200 with a body that is not JSON. *)
Definition resp_ok_not_json : Response := mkResponse 200 "oops" None.

(** 502 with an HTML page. *)
Definition resp_bad_gateway : Response :=
  mkResponse 502 "<html>Bad Gateway</html>" None.

(** 400 with the object whose [error] is the empty string and whose
    [message] is [boom]. *)
Definition body_empty_error : gmap string pyval :=
  <["error" := PyStr ""]> (<["message" := PyStr "boom"]> ∅).

Definition resp_empty_error : Response :=
  mkResponse 400
    ("{" +:+ quoted "error" +:+ ": " +:+ quoted "" +:+ ", "
         +:+ quoted "message" +:+ ": " +:+ quoted "boom" +:+ "}")
    (Some (PyDict body_empty_error)).

(** 404 with the object whose [error] is [not found] and whose [message]
    is [ignored]. *)
Definition body_not_found : gmap string pyval :=
  <["error" := PyStr "not found"]> (<["message" := PyStr "ignored"]> ∅).

Definition resp_not_found : Response :=
  mkResponse 404
    ("{" +:+ quoted "error" +:+ ": " +:+ quoted "not found" +:+ ", "
         +:+ quoted "message" +:+ ": " +:+ quoted "ignored" +:+ "}")
    (Some (PyDict body_not_found)).

(** Two calls of the generic request operation. *)
Definition sample_calls : list Call :=
  [mkCall "GET" "usage" ∅; mkCall "DELETE" "memory/7" ∅].

(** 500 with the JSON array [[]]. *)
Definition resp_error_array : Response :=
  mkResponse 500 "[]" (Some (PyList [])).

(** 200 with the JSON array [[1, 2]]. *)
Definition resp_ok_array : Response :=
  mkResponse 200 "[1, 2]" (Some (PyList [PyInt 1; PyInt 2])).

(** *** The public surface, as data *)

(** A call of a verb wrapper or of a domain operation, with its
    arguments.  Statements that hold for all of them quantify over this
    type; [run] sends each constructor to the source function of the same
    name. *)
Inductive Operation : Type :=
| Op_get (path : string) (params : option (gmap string pyval))
| Op_post (path : string) (data : option (gmap string pyval))
| Op_patch (path : string) (data : option (gmap string pyval))
| Op_delete (path : string)
| Op_save_memory (content memory_type category subject : string)
    (importance : Z) (scope project_id : string)
| Op_recall_memories (query : string) (limit : Z)
    (memory_type scope : string)
| Op_extract_memories (user_message assistant_response
    previous_context : string)
| Op_get_project_context (project_id : string) (include_global : bool)
    (context : string)
| Op_list_memories (memory_type category scope : string) (limit offset : Z)
| Op_update_memory (memory_id : Z) (content : string)
    (importance : option Z) (scope : string)
| Op_delete_memory (memory_id : Z)
| Op_get_usage
| Op_ingest_document (text document_type project_id : string)
| Op_save_session_summary (summary project_id : string)
| Op_export_memories
| Op_import_memories (memories : list pyval)
| Op_get_memory_versions (memory_id : Z)
| Op_get_team_members (project_id : string)
| Op_invite_team_member (email project_id role : string)
| Op_remove_team_member (member_id : Z)
| Op_link_memories (memory_id related_memory_id : Z)
    (relationship_type : string)
| Op_get_memory_links (memory_id : Z)
| Op_get_promotion_candidates
| Op_promote_to_global (memory_id : Z).

Definition run (transport : Request -> outcome Response) (op : Operation)
  : M pyval :=
  match op with
  | Op_get path params => _get transport path params
  | Op_post path data => _post transport path data
  | Op_patch path data => _patch transport path data
  | Op_delete path => _delete transport path
  | Op_save_memory content memory_type category subject importance scope
      project_id =>
      save_memory transport content memory_type category subject importance
        scope project_id
  | Op_recall_memories query limit memory_type scope =>
      recall_memories transport query limit memory_type scope
  | Op_extract_memories user_message assistant_response previous_context =>
      extract_memories transport user_message assistant_response
        previous_context
  | Op_get_project_context project_id include_global context =>
      get_project_context transport project_id include_global context
  | Op_list_memories memory_type category scope limit offset =>
      list_memories transport memory_type category scope limit offset
  | Op_update_memory memory_id content importance scope =>
      update_memory transport memory_id content importance scope
  | Op_delete_memory memory_id => delete_memory transport memory_id
  | Op_get_usage => get_usage transport
  | Op_ingest_document text document_type project_id =>
      ingest_document transport text document_type project_id
  | Op_save_session_summary summary project_id =>
      save_session_summary transport summary project_id
  | Op_export_memories => export_memories transport
  | Op_import_memories memories => import_memories transport memories
  | Op_get_memory_versions memory_id =>
      get_memory_versions transport memory_id
  | Op_get_team_members project_id => get_team_members transport project_id
  | Op_invite_team_member email project_id role =>
      invite_team_member transport email project_id role
  | Op_remove_team_member member_id =>
      remove_team_member transport member_id
  | Op_link_memories memory_id related_memory_id relationship_type =>
      link_memories transport memory_id related_memory_id relationship_type
  | Op_get_memory_links memory_id => get_memory_links transport memory_id
  | Op_get_promotion_candidates => get_promotion_candidates transport
  | Op_promote_to_global memory_id => promote_to_global transport memory_id
  end.

(** The client after a sequence of operations, whatever each of them
    returned or raised. *)
Fixpoint after_operations (transport : Request -> outcome Response)
    (ops : list Operation) (self : CogmemAi) : CogmemAi :=
  match ops with
  | [] => self
  | op :: rest =>
      after_operations transport rest (snd (run transport op self))
  end.

(** Every character of [s] is one of [chars]. *)
Fixpoint all_in (chars s : string) : bool :=
  match s with
  | EmptyString => true
  | String a rest => char_in a chars && all_in chars rest
  end.

(** The entry of an optional string argument in a payload: none when the
    argument is the empty string. *)
Definition supplied (s : string) : option pyval :=
  if decide (s = "") then None else Some (PyStr s).

(** A transport that fails on every request. *)
Definition failing (e : exn) : Request -> outcome Response :=
  fun _ => Raises e.

(** A session of work: three operations of different verbs. *)
Definition sample_operations : list Operation :=
  [Op_get_usage; Op_update_memory 7 "" (Some 9) ""; Op_delete_memory 7].

(** 200 with an export of one memory. *)
Definition exported_memories : list pyval :=
  [PyDict (<["content" := PyStr "uses React"]> ∅)].

Definition body_export : gmap string pyval :=
  <["version" := PyInt 1]> (<["memories" := PyList exported_memories]> ∅).

Definition resp_export : Response :=
  mkResponse 200
    ("{" +:+ quoted "version" +:+ ": 1, " +:+ quoted "memories" +:+ ": [{"
         +:+ quoted "content" +:+ ": " +:+ quoted "uses React" +:+ "}]}")
    (Some (PyDict body_export)).

(** * Properties *)

(** ** Strings *)

Lemma append_empty_l (s : string) : EmptyString +:+ s = s.
Proof. reflexivity. Qed.

Lemma append_cons (a : ascii) (s t : string) :
  String a s +:+ t = String a (s +:+ t).
Proof. reflexivity. Qed.

Lemma append_char_not_empty (front : string) (a : ascii) :
  front +:+ String a EmptyString <> EmptyString.
Proof.
  destruct front; [rewrite append_empty_l | rewrite append_cons];
    discriminate.
Qed.

Lemma rstrip_cons_kept (chars : string) (a b : ascii) (rest kept : string) :
  rstrip chars rest = String b kept ->
  rstrip chars (String a rest) = String a (String b kept).
Proof. intros H. simpl. rewrite H. reflexivity. Qed.

Lemma rstrip_cons_empty (chars : string) (a : ascii) (rest : string) :
  rstrip chars rest = EmptyString ->
  rstrip chars (String a rest)
  = if char_in a chars then EmptyString else String a EmptyString.
Proof. intros H. simpl. rewrite H. reflexivity. Qed.

(** What [rstrip] removes is a run of the stripped character. *)
Lemma rstrip_slash_split (s : string) :
  exists n, s = rstrip "/" s +:+ replicate_char n "/"%char.
Proof.
  induction s as [|a rest [n IH]].
  - exists O. reflexivity.
  - destruct (rstrip "/" rest) as [|b kept] eqn:E.
    + rewrite (rstrip_cons_empty _ _ _ E).
      rewrite append_empty_l in IH. simpl char_in. rewrite orb_false_r.
      destruct (Ascii.eqb_spec a "/"%char) as [->|Hne].
      * exists (S n). rewrite append_empty_l. simpl. congruence.
      * exists n. rewrite append_cons, append_empty_l. congruence.
    + rewrite (rstrip_cons_kept _ _ _ _ _ E).
      exists n. rewrite append_cons. congruence.
Qed.

(** What [rstrip] keeps does not end with a stripped character. *)
Lemma rstrip_no_trailing (chars s : string) (a : ascii) :
  ends_with (rstrip chars s) a -> char_in a chars = false.
Proof.
  induction s as [|c rest IH]; intros [front Hfront].
  - simpl in Hfront. symmetry in Hfront.
    now apply append_char_not_empty in Hfront.
  - destruct (rstrip chars rest) as [|b kept] eqn:E.
    + rewrite (rstrip_cons_empty _ _ _ E) in Hfront.
      destruct (char_in c chars) eqn:Hc.
      * symmetry in Hfront. now apply append_char_not_empty in Hfront.
      * destruct front as [|f front].
        -- rewrite append_empty_l in Hfront. congruence.
        -- rewrite append_cons in Hfront.
           injection Hfront as _ Hrest. symmetry in Hrest.
           now apply append_char_not_empty in Hrest.
    + rewrite (rstrip_cons_kept _ _ _ _ _ E) in Hfront.
      destruct front as [|f front].
      * rewrite append_empty_l in Hfront. discriminate.
      * rewrite append_cons in Hfront.
        injection Hfront as _ Hrest. apply IH. exists front. exact Hrest.
Qed.

Lemma rstrip_default_base_url : rstrip "/" DEFAULT_BASE_URL = DEFAULT_BASE_URL.
Proof. reflexivity. Qed.

(** [startswith("cm_")], as a statement about the string. *)
Lemma prefix_cm_iff (k : string) :
  String.prefix "cm_" k = true <-> exists rest, k = "cm_" +:+ rest.
Proof.
  split.
  - destruct k as [|a [|b [|c rest]]]; cbn [String.prefix]; try discriminate;
      repeat (match goal with
              | |- context [ascii_dec ?x ?y] => destruct (ascii_dec x y)
              end; try discriminate).
    intros _. subst. exists rest. reflexivity.
  - intros [rest ->]. rewrite !append_cons, append_empty_l.
    cbn [String.prefix].
    repeat (match goal with
            | |- context [ascii_dec ?x ?y] => destruct (ascii_dec x y)
            end; try congruence).
    destruct rest; reflexivity.
Qed.

Lemma nonempty_iff (s : string) : nonempty s = true <-> s <> "".
Proof.
  unfold nonempty. destruct (String.eqb_spec s ""); simpl; split;
    congruence.
Qed.

(** ** Method bodies and the stored configuration *)

Lemma keeps_config_ret {A : Type} (a : A) : keeps_config (ret a).
Proof. intros self. reflexivity. Qed.

Lemma keeps_config_raise {A : Type} (e : exn) : keeps_config (@raise A e).
Proof. intros self. reflexivity. Qed.

Lemma keeps_config_attr {A : Type} (f : CogmemAi -> A) :
  keeps_config (attr f).
Proof. intros self. reflexivity. Qed.

Lemma keeps_config_lift {A : Type} (o : outcome A) : keeps_config (lift o).
Proof. intros self. reflexivity. Qed.

Lemma keeps_config_bind {A B : Type} (m : M A) (k : A -> M B) :
  keeps_config m -> (forall a, keeps_config (k a)) ->
  keeps_config (x <- m ;; k x).
Proof.
  intros Hm Hk self. unfold bind.
  specialize (Hm self). destruct (m self) as [[a|e] self']; simpl in *.
  - rewrite Hk. exact Hm.
  - exact Hm.
Qed.

Lemma keeps_config_if {A : Type} (b : bool) (m1 m2 : M A) :
  keeps_config m1 -> keeps_config m2 ->
  keeps_config (if b then m1 else m2).
Proof. destruct b; auto. Qed.

Create HintDb frame.
#[local] Hint Resolve keeps_config_ret keeps_config_raise keeps_config_attr
  keeps_config_lift keeps_config_if : frame.

Section Frame.

Variable transport : Request -> outcome Response.

Lemma keeps_config_session_request (method url : string)
    (kwargs : gmap string pyval) :
  keeps_config (session_request transport method url kwargs).
Proof. intros self. reflexivity. Qed.

Lemma keeps_config__request (method path : string)
    (kwargs : gmap string pyval) :
  keeps_config (_request transport method path kwargs).
Proof.
  unfold _request.
  apply keeps_config_bind; [auto with frame | intros root].
  apply keeps_config_bind; [auto with frame | intros t].
  apply keeps_config_bind; [apply keeps_config_session_request | intros resp].
  destruct (json resp) as [data|]; [| auto with frame].
  apply keeps_config_if; [| auto with frame].
  apply keeps_config_bind; [auto with frame | intros e].
  apply keeps_config_bind; [| auto with frame].
  apply keeps_config_if; [auto with frame |].
  apply keeps_config_bind; auto with frame.
Qed.

(** Each call puts exactly one request on the wire, the one [outgoing]
    describes, whatever comes back. *)
Lemma _request_trace (method path : string) (kwargs : gmap string pyval)
    (self : CogmemAi) :
  sent (_session (snd (_request transport method path kwargs self)))
  = (sent (_session self) ++ [outgoing self method path kwargs])%list.
Proof.
  unfold _request, bind, attr, session_request, outgoing. simpl.
  destruct (transport _) as [resp|e]; [| reflexivity].
  destruct (json resp) as [data|]; [| reflexivity].
  destruct (400 <=? status_code resp); [| reflexivity].
  unfold lift. destruct (data_get data "error") as [v|e]; [| reflexivity].
  destruct (truthy v); [reflexivity |].
  destruct (data_get data "message"); reflexivity.
Qed.

(** The result of a call, once the transport's answer is known. *)
Lemma _request_transport_failure (method path : string)
    (kwargs : gmap string pyval) (self : CogmemAi) (e : exn) :
  transport (outgoing self method path kwargs) = Raises e ->
  fst (_request transport method path kwargs self) = Raises e.
Proof.
  intros H. unfold outgoing in H.
  unfold _request, bind, attr, session_request. simpl. rewrite H.
  reflexivity.
Qed.

Lemma _request_result (method path : string) (kwargs : gmap string pyval)
    (self : CogmemAi) (resp : Response) :
  transport (outgoing self method path kwargs) = Returns resp ->
  fst (_request transport method path kwargs self)
  = match json resp with
    | None =>
        Raises (CogmemAiError
                  (PyStr ("Invalid JSON response: " +:+ text resp))
                  (Some (status_code resp)))
    | Some data =>
        if 400 <=? status_code resp then
          match data_get data "error" with
          | Raises e => Raises e
          | Returns e =>
              if truthy e
              then Raises (CogmemAiError e (Some (status_code resp)))
              else
                match data_get data "message" with
                | Raises e' => Raises e'
                | Returns m =>
                    Raises (CogmemAiError (py_or m (PyStr (text resp)))
                              (Some (status_code resp)))
                end
          end
        else Returns data
    end.
Proof.
  intros H. unfold outgoing in H.
  unfold _request, bind, attr, session_request. simpl. rewrite H.
  destruct (json resp) as [data|]; [| reflexivity].
  destruct (400 <=? status_code resp); [| reflexivity].
  unfold lift. destruct (data_get data "error") as [v|e]; [| reflexivity].
  destruct (truthy v); [reflexivity |].
  destruct (data_get data "message"); reflexivity.
Qed.

End Frame.

(** ** The generic request operation *)

(** C1, as amended.  Whenever the body of the response does not decode as
    JSON, [_request] raises [CogmemAiError] (the specification's ApiError)
    with the HTTP status code of the response, whatever that code is, 2xx
    included, and without looking at it; the message is the fixed text
    "Invalid JSON response: " followed by the raw response text. *)
Theorem invalid_json_raises (transport : Request -> outcome Response)
    (method path : string) (kwargs : gmap string pyval) (self : CogmemAi)
    (resp : Response) :
  transport (outgoing self method path kwargs) = Returns resp ->
  json resp = None ->
  fst (_request transport method path kwargs self)
  = Raises (CogmemAiError
              (PyStr ("Invalid JSON response: " +:+ text resp))
              (Some (status_code resp))).
Proof.
  intros Hsend Hjson.
  rewrite (_request_result _ _ _ _ _ _ Hsend), Hjson. reflexivity.
Qed.

Lemma invalid_json_raises_witness :
  answering resp_bad_gateway (outgoing sample_client "GET" "usage" ∅)
  = Returns resp_bad_gateway /\
  json resp_bad_gateway = None /\
  fst (_request (answering resp_bad_gateway) "GET" "usage" ∅ sample_client)
  = Raises (CogmemAiError
              (PyStr "Invalid JSON response: <html>Bad Gateway</html>")
              (Some 502)).
Proof.
  split; [reflexivity | split; [reflexivity |]].
  exact (invalid_json_raises (answering resp_bad_gateway) "GET" "usage" ∅
           sample_client resp_bad_gateway eq_refl eq_refl).
Defined.

(** C1 as stated fails: for the 200 response with body [oops] the message
    of the error is not the raw response text. *)
Lemma invalid_json_message_is_not_raw_text :
  json resp_ok_not_json = None /\
  fst (_request (answering resp_ok_not_json) "GET" "usage" ∅ sample_client)
  = Raises (CogmemAiError (PyStr "Invalid JSON response: oops") (Some 200)) /\
  fst (_request (answering resp_ok_not_json) "GET" "usage" ∅ sample_client)
  <> Raises (CogmemAiError (PyStr (text resp_ok_not_json))
               (Some (status_code resp_ok_not_json))).
Proof.
  split; [reflexivity | split; [reflexivity |]].
  vm_compute. discriminate.
Qed.

(** C2, as amended.  For a response with status at least 400 whose body
    decodes to a JSON object, [_request] raises [CogmemAiError] with the
    HTTP status as status code, and the message is chosen by truthiness,
    in priority order: the value of the [error] field when the field is
    present and truthy (the message is then exactly that value), else the
    value of the [message] field when present and truthy, else the raw
    response text. *)
Theorem error_status_raises (transport : Request -> outcome Response)
    (method path : string) (kwargs : gmap string pyval) (self : CogmemAi)
    (resp : Response) (d : gmap string pyval) :
  transport (outgoing self method path kwargs) = Returns resp ->
  json resp = Some (PyDict d) ->
  400 <= status_code resp ->
  exists msg,
    fst (_request transport method path kwargs self)
    = Raises (CogmemAiError msg (Some (status_code resp))) /\
    (forall e, d !! "error" = Some e -> truthy e = true -> msg = e) /\
    (forall m,
        (forall e, d !! "error" = Some e -> truthy e = false) ->
        d !! "message" = Some m -> truthy m = true -> msg = m) /\
    ((forall e, d !! "error" = Some e -> truthy e = false) ->
     (forall m, d !! "message" = Some m -> truthy m = false) ->
     msg = PyStr (text resp)).
Proof.
  intros Hsend Hjson Hstatus.
  rewrite (_request_result _ _ _ _ _ _ Hsend), Hjson.
  apply Z.leb_le in Hstatus. rewrite Hstatus. simpl data_get.
  destruct (d !! "error") as [e|] eqn:He; simpl default.
  - destruct (truthy e) eqn:Te.
    + exists e. split; [reflexivity | split; [| split]].
      * intros e' [= <-] _. reflexivity.
      * intros m Hfalsy. specialize (Hfalsy e eq_refl). congruence.
      * intros Hfalsy. specialize (Hfalsy e eq_refl). congruence.
    + destruct (d !! "message") as [m|] eqn:Hm; simpl default.
      * exists (py_or m (PyStr (text resp))).
        split; [reflexivity | split; [| split]]; unfold py_or.
        -- intros e' [= <-] Te'. congruence.
        -- intros m' _ [= <-] Tm. rewrite Tm. reflexivity.
        -- intros _ Hfalsy. rewrite (Hfalsy m eq_refl). reflexivity.
      * exists (PyStr (text resp)).
        split; [reflexivity | split; [| split]].
        -- intros e' [= <-] Te'. congruence.
        -- intros m' _ [=].
        -- reflexivity.
  - simpl truthy. cbv iota.
    destruct (d !! "message") as [m|] eqn:Hm; simpl default.
    + exists (py_or m (PyStr (text resp))).
      split; [reflexivity | split; [| split]]; unfold py_or.
      * intros e [=].
      * intros m' _ [= <-] Tm. rewrite Tm. reflexivity.
      * intros _ Hfalsy. rewrite (Hfalsy m eq_refl). reflexivity.
    + exists (PyStr (text resp)).
      split; [reflexivity | split; [| split]].
      * intros e [=].
      * intros m' _ [=].
      * reflexivity.
Qed.

Lemma error_status_raises_witness :
  answering resp_not_found (outgoing sample_client "GET" "usage" ∅)
  = Returns resp_not_found /\
  json resp_not_found = Some (PyDict body_not_found) /\
  400 <= status_code resp_not_found /\
  exists msg,
    fst (_request (answering resp_not_found) "GET" "usage" ∅ sample_client)
    = Raises (CogmemAiError msg (Some 404)) /\
    (forall e, body_not_found !! "error" = Some e -> truthy e = true ->
               msg = e) /\
    (forall m,
        (forall e, body_not_found !! "error" = Some e -> truthy e = false) ->
        body_not_found !! "message" = Some m -> truthy m = true -> msg = m) /\
    ((forall e, body_not_found !! "error" = Some e -> truthy e = false) ->
     (forall m, body_not_found !! "message" = Some m -> truthy m = false) ->
     msg = PyStr (text resp_not_found)).
Proof.
  split; [reflexivity | split; [reflexivity | split; [simpl; lia |]]].
  apply (error_status_raises (answering resp_not_found) "GET" "usage" ∅
           sample_client resp_not_found body_not_found).
  - reflexivity.
  - reflexivity.
  - simpl. lia.
Defined.

(** C2 as stated fails: the [error] field of this 400 response is present,
    with the empty string as value, and the message of the error is the
    value of the [message] field, not that of the [error] field. *)
Lemma error_field_present_but_falsy :
  json resp_empty_error = Some (PyDict body_empty_error) /\
  400 <= status_code resp_empty_error /\
  body_empty_error !! "error" = Some (PyStr "") /\
  fst (_request (answering resp_empty_error) "GET" "usage" ∅ sample_client)
  = Raises (CogmemAiError (PyStr "boom") (Some 400)) /\
  fst (_request (answering resp_empty_error) "GET" "usage" ∅ sample_client)
  <> Raises (CogmemAiError (PyStr "") (Some 400)).
Proof.
  split; [reflexivity |]. split; [simpl; lia |].
  split; [reflexivity |]. split; [reflexivity |].
  vm_compute. discriminate.
Qed.

(** C5.  For a response with status below 400 whose body decodes as JSON,
    [_request] returns the decoded body itself: the very value the decoder
    produced, of whatever shape. *)
Theorem success_returns_decoded_body
    (transport : Request -> outcome Response) (method path : string)
    (kwargs : gmap string pyval) (self : CogmemAi) (resp : Response)
    (data : pyval) :
  transport (outgoing self method path kwargs) = Returns resp ->
  json resp = Some data ->
  status_code resp < 400 ->
  fst (_request transport method path kwargs self) = Returns data.
Proof.
  intros Hsend Hjson Hstatus.
  rewrite (_request_result _ _ _ _ _ _ Hsend), Hjson.
  apply Z.leb_gt in Hstatus. rewrite Hstatus. reflexivity.
Qed.

Lemma success_returns_decoded_body_witness :
  answering resp_ok_array (outgoing sample_client "GET" "export" ∅)
  = Returns resp_ok_array /\
  json resp_ok_array = Some (PyList [PyInt 1; PyInt 2]) /\
  status_code resp_ok_array < 400 /\
  fst (_request (answering resp_ok_array) "GET" "export" ∅ sample_client)
  = Returns (PyList [PyInt 1; PyInt 2]).
Proof.
  split; [reflexivity | split; [reflexivity | split; [simpl; lia |]]].
  apply (success_returns_decoded_body (answering resp_ok_array) "GET"
           "export" ∅ sample_client resp_ok_array).
  - reflexivity.
  - reflexivity.
  - simpl. lia.
Defined.

(** C8.  A call of [_request] leaves the stored configuration of the
    client as it was: the credential, the base URL, the timeout and the
    headers attached to every request.  This holds for every transport and
    so for every outcome of the call, a returned body, a [CogmemAiError]
    or a failure of the transport. *)
Theorem request_keeps_configuration
    (transport : Request -> outcome Response) (method path : string)
    (kwargs : gmap string pyval) (self : CogmemAi) :
  api_key (snd (_request transport method path kwargs self)) = api_key self /\
  base_url (snd (_request transport method path kwargs self))
  = base_url self /\
  timeout (snd (_request transport method path kwargs self)) = timeout self /\
  headers (_session (snd (_request transport method path kwargs self)))
  = headers (_session self).
Proof.
  pose proof (keeps_config__request transport method path kwargs self) as H.
  unfold config in H. injection H as -> -> -> ->. repeat split.
Qed.

(** With status at least 400 and a decoded body that is not an object, the
    lookup of the error message raises [AttributeError]. *)
Lemma error_status_not_object (transport : Request -> outcome Response)
    (method path : string) (kwargs : gmap string pyval) (self : CogmemAi)
    (resp : Response) (data : pyval) :
  transport (outgoing self method path kwargs) = Returns resp ->
  json resp = Some data ->
  400 <= status_code resp ->
  (forall d, data <> PyDict d) ->
  fst (_request transport method path kwargs self)
  = Raises (AttributeError
              ("'" +:+ type_name data +:+ "' object has no attribute 'get'")).
Proof.
  intros Hsend Hjson Hstatus Hshape.
  rewrite (_request_result _ _ _ _ _ _ Hsend), Hjson.
  apply Z.leb_le in Hstatus. rewrite Hstatus.
  destruct data; try reflexivity. now destruct (Hshape d).
Qed.

(** C9 fails on the code.  For the 500 response whose body is the JSON
    array [[]], [_request] raises [AttributeError], not [CogmemAiError]:
    the error-message lookup is defined on objects only. *)
Theorem error_status_array_body_raises_attribute_error :
  json resp_error_array = Some (PyList []) /\
  400 <= status_code resp_error_array /\
  fst (_request (answering resp_error_array) "GET" "usage" ∅ sample_client)
  = Raises (AttributeError "'list' object has no attribute 'get'").
Proof.
  split; [reflexivity | split; [simpl; lia | reflexivity]].
Qed.

(** ** Construction *)

(** C3.  Construction succeeds for every credential that starts with
    [cm_] and raises [ValueError] (the specification's
    ConfigurationError) for every other string, the empty string among
    them.  The constructor is a function of its arguments and of the
    library's default headers only: the transport is not among its inputs,
    and the session of a client it returns has sent nothing. *)
Theorem init_validates_api_key (library_headers : gmap string string)
    (k : string) (b : option string) (t : Z) :
  ((exists rest, k = "cm_" +:+ rest) ->
   exists self,
     __init__ library_headers k b t = Returns self /\
     api_key self = k /\ timeout self = t /\
     sent (_session self) = []) /\
  (~ (exists rest, k = "cm_" +:+ rest) ->
   __init__ library_headers k b t
   = Raises (ValueError "API key must start with 'cm_'")) /\
  __init__ library_headers "" b t
  = Raises (ValueError "API key must start with 'cm_'").
Proof.
  split; [| split; [| reflexivity]].
  - intros Hk. pose proof (proj2 (prefix_cm_iff k) Hk) as Hp.
    destruct Hk as [rest ->]. unfold __init__. rewrite Hp.
    rewrite !append_cons. simpl. eexists. repeat split.
  - intros Hk. unfold __init__.
    destruct (String.prefix "cm_" k) eqn:Hp.
    + exfalso. apply Hk, prefix_cm_iff, Hp.
    + rewrite orb_true_r. reflexivity.
Qed.

Lemma init_validates_api_key_witness :
  (exists rest, "cm_test" = "cm_" +:+ rest) /\
  ~ (exists rest, "sk_test" = "cm_" +:+ rest) /\
  (exists self,
     __init__ ∅ "cm_test" None 30 = Returns self /\
     api_key self = "cm_test" /\ timeout self = 30 /\
     sent (_session self) = []) /\
  __init__ ∅ "sk_test" None 30
  = Raises (ValueError "API key must start with 'cm_'").
Proof.
  assert (Hyes : exists rest, "cm_test" = "cm_" +:+ rest)
    by (exists "test"; reflexivity).
  assert (Hno : ~ (exists rest, "sk_test" = "cm_" +:+ rest))
    by (intros [rest Hrest]; rewrite !append_cons in Hrest; discriminate).
  split; [exact Hyes | split; [exact Hno | split]].
  - exact (proj1 (init_validates_api_key ∅ "cm_test" None 30) Hyes).
  - exact (proj1 (proj2 (init_validates_api_key ∅ "sk_test" None 30)) Hno).
Defined.

(** ** Request URLs *)

Lemma after_calls_base_url (transport : Request -> outcome Response)
    (calls : list Call) (self : CogmemAi) :
  base_url (after_calls transport calls self) = base_url self.
Proof.
  revert self. induction calls as [|c rest IH]; intros self; simpl.
  - reflexivity.
  - rewrite IH.
    pose proof (keeps_config__request transport (call_method c)
                  (call_path c) (call_kwargs c) self) as H.
    unfold config in H. now injection H.
Qed.

(** The URLs on the wire after a sequence of calls: those already there,
    then one per call, each built from the stored base URL. *)
Lemma after_calls_urls (transport : Request -> outcome Response)
    (calls : list Call) (self : CogmemAi) :
  map req_url (sent (_session (after_calls transport calls self)))
  = (map req_url (sent (_session self))
     ++ map (fun c => base_url self +:+ "/cogmemai/" +:+ call_path c) calls)%list.
Proof.
  revert self. induction calls as [|c rest IH]; intros self; simpl.
  - now rewrite app_nil_r.
  - rewrite IH, _request_trace, map_app, <- app_assoc. simpl.
    pose proof (keeps_config__request transport (call_method c)
                  (call_path c) (call_kwargs c) self) as H.
    unfold config in H. injection H as _ Hb _ _. rewrite Hb.
    reflexivity.
Qed.

Lemma init_base_url (library_headers : gmap string string) (k : string)
    (b : option string) (t : Z) (self : CogmemAi) :
  __init__ library_headers k b t = Returns self ->
  sent (_session self) = [] /\
  base_url self
  = rstrip "/" (match b with
                | Some b' => if nonempty b' then b' else DEFAULT_BASE_URL
                | None => DEFAULT_BASE_URL
                end).
Proof.
  unfold __init__.
  destruct (negb (nonempty k) || negb (String.prefix "cm_" k));
    [discriminate |].
  intros [= <-]. split; reflexivity.
Qed.

(** C4, as amended.  For a client built with a base URL that is not the
    empty string, the URL of every request it sends is that base URL
    without its trailing slashes, then [/cogmemai/], then the path of the
    call; what is cut off is a run of slashes and what remains does not
    end with a slash, so no double slash appears at the joint.  When the
    base URL is absent or the empty string, the default service root takes
    its place. *)
Theorem request_url_from_base_url (library_headers : gmap string string)
    (transport : Request -> outcome Response) (k : string)
    (b : option string) (t : Z) (self : CogmemAi) (calls : list Call) :
  __init__ library_headers k b t = Returns self ->
  (forall b', b = Some b' -> b' <> "" ->
     map req_url (sent (_session (after_calls transport calls self)))
     = map (fun c => rstrip "/" b' +:+ "/cogmemai/" +:+ call_path c) calls /\
     (exists n, b' = rstrip "/" b' +:+ replicate_char n "/"%char) /\
     ~ ends_with (rstrip "/" b') "/"%char) /\
  (b = None \/ b = Some "" ->
     map req_url (sent (_session (after_calls transport calls self)))
     = map (fun c => DEFAULT_BASE_URL +:+ "/cogmemai/" +:+ call_path c)
         calls).
Proof.
  intros Hinit. destruct (init_base_url _ _ _ _ _ Hinit) as [Hsent Hroot].
  pose proof (after_calls_urls transport calls self) as Hurls.
  rewrite Hsent in Hurls. simpl in Hurls. split.
  - intros b' -> Hne. apply nonempty_iff in Hne. rewrite Hne in Hroot.
    rewrite Hroot in Hurls. split; [exact Hurls | split].
    + apply rstrip_slash_split.
    + intros Hends. apply rstrip_no_trailing in Hends. discriminate.
  - intros [-> | ->];
      change (base_url self = rstrip "/" DEFAULT_BASE_URL) in Hroot;
      rewrite rstrip_default_base_url in Hroot; rewrite Hroot in Hurls;
      exact Hurls.
Qed.

Lemma request_url_from_base_url_witness :
  __init__ ∅ "cm_test" (Some "https://x/api/") 30 = Returns sample_client /\
  "https://x/api/" <> "" /\
  map req_url
    (sent (_session
             (after_calls (answering resp_ok_array) sample_calls
                sample_client)))
  = ["https://x/api/cogmemai/usage"; "https://x/api/cogmemai/memory/7"].
Proof.
  assert (Hne : "https://x/api/" <> "") by discriminate.
  split; [reflexivity | split; [exact Hne |]].
  exact (proj1 (proj1 (request_url_from_base_url ∅ (answering resp_ok_array)
                         "cm_test" (Some "https://x/api/") 30 sample_client
                         sample_calls eq_refl)
                  "https://x/api/" eq_refl Hne)).
Defined.

(** C4 as stated fails at the empty base URL: the request goes to the
    default service root, not to the empty string followed by
    [/cogmemai/] and the path. *)
Lemma empty_base_url_selects_default_root :
  exists self,
    __init__ ∅ "cm_test" (Some "") 30 = Returns self /\
    map req_url
      (sent (_session
               (after_calls (answering resp_ok_array)
                  [mkCall "GET" "usage" ∅] self)))
    = ["https://hifriendbot.com/wp-json/hifriendbot/v1/cogmemai/usage"] /\
    map req_url
      (sent (_session
               (after_calls (answering resp_ok_array)
                  [mkCall "GET" "usage" ∅] self)))
    <> map (fun c => rstrip "/" "" +:+ "/cogmemai/" +:+ call_path c)
         [mkCall "GET" "usage" ∅].
Proof.
  eexists. split; [reflexivity |]. split.
  - vm_compute. reflexivity.
  - vm_compute. discriminate.
Qed.

(** ** Payloads of the domain operations *)

Lemma setdefault_lookup_ne (k k' : string) (v : pyval)
    (d : gmap string pyval) :
  k <> k' -> setdefault k v d !! k' = d !! k'.
Proof.
  intros Hne. unfold setdefault.
  destruct (d !! k); [reflexivity | now apply lookup_insert_ne].
Qed.

(** The keyword argument a verb wrapper passes reaches the wire as it is. *)
Lemma outgoing_kwarg (self : CogmemAi) (method path key : string)
    (v : pyval) :
  key <> "timeout" ->
  req_kwargs (outgoing self method path {[key := v]}) !! key = Some v.
Proof.
  intros Hne. unfold outgoing. simpl.
  rewrite setdefault_lookup_ne by congruence.
  apply lookup_singleton_eq.
Qed.

(** C6.  [update_memory] called with [importance] only, [content] and
    [scope] left at their defaults, sends one PATCH request whose JSON body
    has exactly the key [importance], bound to the given value, and neither
    [content] nor [scope]. *)
Theorem update_memory_importance_only
    (transport : Request -> outcome Response) (self : CogmemAi)
    (memory_id n : Z) :
  exists req payload,
    sent (_session
            (snd (update_memory transport memory_id "" (Some n) "" self)))
    = (sent (_session self) ++ [req])%list /\
    req_method req = "PATCH" /\
    req_url req
    = base_url self +:+ "/cogmemai/" +:+ "memory/" +:+ pretty memory_id /\
    req_kwargs req !! "json" = Some (PyDict payload) /\
    dom payload = {["importance"]} /\
    payload !! "importance" = Some (PyInt n) /\
    payload !! "content" = None /\
    payload !! "scope" = None.
Proof.
  exists (outgoing self "PATCH" ("memory/" +:+ pretty memory_id)
            {["json" := PyDict (<["importance" := PyInt n]> ∅)]}),
         (<["importance" := PyInt n]> ∅).
  split; [apply _request_trace |].
  split; [reflexivity |]. split; [reflexivity |].
  split; [now apply outgoing_kwarg |].
  split; [rewrite dom_insert_L, dom_empty_L; set_solver |].
  split; [apply lookup_insert_eq |].
  split; now rewrite lookup_insert_ne.
Qed.

(** C7.  [list_memories] sends one GET request whose query parameters
    always have the keys [limit], [offset] and [scope]; [memory_type] is a
    key exactly when the caller gave a non-empty memory type, [category]
    exactly when the caller gave a non-empty category, and there is no
    other key.  With both filters left empty the keys are [limit],
    [offset] and [scope] only. *)
Theorem list_memories_params (transport : Request -> outcome Response)
    (self : CogmemAi) (memory_type category scope : string)
    (limit offset : Z) :
  exists req params,
    sent (_session
            (snd (list_memories transport memory_type category scope limit
                    offset self)))
    = (sent (_session self) ++ [req])%list /\
    req_method req = "GET" /\
    req_url req = base_url self +:+ "/cogmemai/" +:+ "memories" /\
    req_kwargs req !! "params" = Some (PyDict params) /\
    (forall k,
        k ∈ dom params <->
        k = "limit" \/ k = "offset" \/ k = "scope" \/
        (k = "memory_type" /\ memory_type <> "") \/
        (k = "category" /\ category <> "")) /\
    (memory_type = "" -> category = "" ->
     dom params = {["limit"; "offset"; "scope"]}).
Proof.
  unfold list_memories, _get.
  eexists (outgoing self "GET" "memories" {["params" := PyDict _]}), _.
  split; [apply _request_trace |].
  split; [reflexivity |]. split; [reflexivity |].
  split; [now apply outgoing_kwarg |].
  unfold nonempty.
  destruct (String.eqb_spec memory_type "") as [Hm|Hm];
    destruct (String.eqb_spec category "") as [Hc|Hc]; simpl negb; cbv iota;
    rewrite ?dom_insert_L, dom_empty_L;
    (split;
     [ intros k; rewrite ?elem_of_union, !elem_of_singleton, elem_of_empty;
       intuition congruence
     | intros Hm' Hc'; first [congruence | set_solver] ]).
Qed.

Lemma list_memories_params_witness :
  exists req params,
    sent (_session
            (snd (list_memories (answering resp_ok_array) "" "" "all" 50 0
                    sample_client)))
    = (sent (_session sample_client) ++ [req])%list /\
    req_method req = "GET" /\
    req_kwargs req !! "params" = Some (PyDict params) /\
    dom params = {["limit"; "offset"; "scope"]}.
Proof.
  destruct (list_memories_params (answering resp_ok_array) sample_client
              "" "" "all" 50 0)
    as (req & params & Hsent & Hmethod & _ & Hparams & _ & Hdom).
  exists req, params.
  split; [exact Hsent | split; [exact Hmethod | split; [exact Hparams |]]].
  apply Hdom; reflexivity.
Defined.

(** C10.  [save_memory] sends one POST request whose JSON body has all
    seven keys [content], [memory_type], [category], [subject],
    [importance], [scope] and [project_id], each bound to the argument of
    that name, for every combination of arguments: an empty [subject] or
    [project_id] is sent as the empty string, not left out. *)
Theorem save_memory_sends_all_fields
    (transport : Request -> outcome Response) (self : CogmemAi)
    (content memory_type category subject : string) (importance : Z)
    (scope project_id : string) :
  exists req payload,
    sent (_session
            (snd (save_memory transport content memory_type category subject
                    importance scope project_id self)))
    = (sent (_session self) ++ [req])%list /\
    req_method req = "POST" /\
    req_url req = base_url self +:+ "/cogmemai/" +:+ "store" /\
    req_kwargs req !! "json" = Some (PyDict payload) /\
    dom payload
    = {["content"; "memory_type"; "category"; "subject"; "importance";
        "scope"; "project_id"]} /\
    payload !! "content" = Some (PyStr content) /\
    payload !! "memory_type" = Some (PyStr memory_type) /\
    payload !! "category" = Some (PyStr category) /\
    payload !! "subject" = Some (PyStr subject) /\
    payload !! "importance" = Some (PyInt importance) /\
    payload !! "scope" = Some (PyStr scope) /\
    payload !! "project_id" = Some (PyStr project_id).
Proof.
  unfold save_memory, _post.
  eexists (outgoing self "POST" "store" {["json" := PyDict _]}), _.
  split; [apply _request_trace |].
  split; [reflexivity |]. split; [reflexivity |].
  split; [now apply outgoing_kwarg |].
  split; [rewrite !dom_insert_L, dom_empty_L; set_solver |].
  repeat split; now simplify_map_eq.
Qed.

(** The other operations leave an optional argument out when it is empty:
    [save_session_summary] without a project sends [summary] alone. *)
Lemma save_session_summary_omits_empty_project
    (transport : Request -> outcome Response) (self : CogmemAi)
    (summary : string) :
  exists req payload,
    sent (_session (snd (save_session_summary transport summary "" self)))
    = (sent (_session self) ++ [req])%list /\
    req_kwargs req !! "json" = Some (PyDict payload) /\
    dom payload = {["summary"]}.
Proof.
  unfold save_session_summary, _post.
  eexists (outgoing self "POST" "session-summary" {["json" := PyDict _]}), _.
  split; [apply _request_trace |].
  split; [now apply outgoing_kwarg |].
  simpl. rewrite dom_insert_L, dom_empty_L. set_solver.
Qed.

(** ** The whole public surface *)

(** Each verb wrapper and each domain operation is one call of
    [_request], with a verb, a path and keyword arguments that depend on
    its own arguments only; the keyword arguments are [params] alone for
    GET, [json] alone for POST and PATCH, and none for DELETE. *)
Lemma run_shape (op : Operation) :
  exists method path kwargs,
    (forall transport, run transport op = _request transport method path kwargs) /\
    ((method = "GET" /\ exists v, kwargs = {["params" := v]}) \/
     (method = "POST" /\ exists v, kwargs = {["json" := v]}) \/
     (method = "PATCH" /\ exists v, kwargs = {["json" := v]}) \/
     (method = "DELETE" /\ kwargs = ∅)).
Proof.
  destruct op;
    cbv [run _get _post _patch _delete save_memory recall_memories
         extract_memories get_project_context list_memories update_memory
         delete_memory get_usage ingest_document save_session_summary
         export_memories import_memories get_memory_versions
         get_team_members invite_team_member remove_team_member
         link_memories get_memory_links get_promotion_candidates
         promote_to_global];
    do 3 eexists; (split; [intros transport; reflexivity |]);
    first [ left; split; [reflexivity | eexists; reflexivity]
          | right; left; split; [reflexivity | eexists; reflexivity]
          | right; right; left; split; [reflexivity | eexists; reflexivity]
          | right; right; right; split; reflexivity ].
Qed.

Lemma setdefault_lookup_absent (k : string) (v : pyval)
    (d : gmap string pyval) :
  d !! k = None -> setdefault k v d !! k = Some v.
Proof. intros H. unfold setdefault. rewrite H. apply lookup_insert_eq. Qed.

Lemma setdefault_lookup_present (k : string) (v w : pyval)
    (d : gmap string pyval) :
  d !! k = Some w -> setdefault k v d !! k = Some w.
Proof. intros H. unfold setdefault. rewrite H. exact H. Qed.

(** The request an operation sends, in full: it is appended to the
    session's record, goes to a URL under the stored root with the
    session's headers, and carries the client's timeout beside the
    keyword arguments of its verb. *)
Lemma run_sends (transport : Request -> outcome Response) (op : Operation)
    (self : CogmemAi) :
  exists method path kwargs,
    run transport op = _request transport method path kwargs /\
    sent (_session (snd (run transport op self)))
    = (sent (_session self) ++ [outgoing self method path kwargs])%list /\
    kwargs !! "timeout" = None /\
    ((method = "GET" /\ exists v, kwargs = {["params" := v]}) \/
     (method = "POST" /\ exists v, kwargs = {["json" := v]}) \/
     (method = "PATCH" /\ exists v, kwargs = {["json" := v]}) \/
     (method = "DELETE" /\ kwargs = ∅)).
Proof.
  destruct (run_shape op) as (method & path & kwargs & Hrun & Hshape).
  exists method, path, kwargs.
  split; [apply Hrun |]. split; [rewrite Hrun; apply _request_trace |].
  split; [| exact Hshape].
  destruct Hshape as [[_ [v ->]] | [[_ [v ->]] | [[_ [v ->]] | [_ ->]]]];
    reflexivity.
Qed.

(** X1.  Every verb wrapper and every domain operation puts exactly one
    request on the wire, whatever the transport answers and whether the
    call returns or raises: the requests sent before are kept, and the new
    one goes to the stored base URL followed by [/cogmemai/] and a path,
    with the session's headers and the client's timeout. *)
Theorem operation_sends_one_request
    (transport : Request -> outcome Response) (op : Operation)
    (self : CogmemAi) :
  exists req path,
    sent (_session (snd (run transport op self)))
    = (sent (_session self) ++ [req])%list /\
    req_url req = base_url self +:+ "/cogmemai/" +:+ path /\
    req_headers req = headers (_session self) /\
    req_kwargs req !! "timeout" = Some (PyInt (timeout self)).
Proof.
  destruct (run_sends transport op self)
    as (method & path & kwargs & _ & Hsent & Htimeout & _).
  exists (outgoing self method path kwargs), path.
  split; [exact Hsent |]. split; [reflexivity |]. split; [reflexivity |].
  unfold outgoing. simpl. now apply setdefault_lookup_absent.
Qed.

(** X2.  The verb of the request decides where the arguments travel: a
    GET carries [params] and no [json], a POST or a PATCH carries [json]
    and no [params], a DELETE carries neither; no operation uses another
    verb, and beside these the only keyword argument is [timeout]. *)
Theorem operation_verb_and_arguments
    (transport : Request -> outcome Response) (op : Operation)
    (self : CogmemAi) :
  exists req,
    sent (_session (snd (run transport op self)))
    = (sent (_session self) ++ [req])%list /\
    ((req_method req = "GET" /\
      is_Some (req_kwargs req !! "params") /\
      req_kwargs req !! "json" = None) \/
     (req_method req = "POST" /\
      is_Some (req_kwargs req !! "json") /\
      req_kwargs req !! "params" = None) \/
     (req_method req = "PATCH" /\
      is_Some (req_kwargs req !! "json") /\
      req_kwargs req !! "params" = None) \/
     (req_method req = "DELETE" /\
      req_kwargs req !! "json" = None /\
      req_kwargs req !! "params" = None)) /\
    (forall key, is_Some (req_kwargs req !! key) ->
                 key = "params" \/ key = "json" \/ key = "timeout").
Proof.
  destruct (run_sends transport op self)
    as (method & path & kwargs & _ & Hsent & Htimeout & Hshape).
  exists (outgoing self method path kwargs).
  split; [exact Hsent |].
  unfold outgoing, setdefault. simpl. rewrite Htimeout.
  destruct Hshape as [[-> [v ->]] | [[-> [v ->]] | [[-> [v ->]] | [-> ->]]]];
    (split;
     [ first [ left; split; [reflexivity |]
             | right; left; split; [reflexivity |]
             | right; right; left; split; [reflexivity |]
             | right; right; right; split; [reflexivity |] ];
       split; first [ reflexivity | eexists; reflexivity ]
     | intros key [w Hw];
       destruct (decide (key = "timeout")) as [->|Hne]; [tauto |];
       rewrite lookup_insert_ne in Hw by congruence;
       first [ apply lookup_singleton_Some in Hw as [<- _]; tauto
             | rewrite lookup_empty in Hw; discriminate ] ]).
Qed.

Lemma operation_verb_and_arguments_witness :
  exists req,
    sent (_session
            (snd (run (answering resp_ok_array) (Op_delete_memory 7)
                    sample_client)))
    = (sent (_session sample_client) ++ [req])%list /\
    req_method req = "DELETE" /\
    is_Some (req_kwargs req !! "timeout") /\
    ("timeout" = "params" \/ "timeout" = "json" \/ "timeout" = "timeout").
Proof.
  destruct (operation_verb_and_arguments (answering resp_ok_array)
              (Op_delete_memory 7) sample_client)
    as (req & Hsent & _ & Hkeys).
  assert (Hreq : req = outgoing sample_client "DELETE" "memory/7" ∅)
    by (injection Hsent as <-; reflexivity).
  assert (Htimeout : is_Some (req_kwargs req !! "timeout"))
    by (rewrite Hreq; eexists; reflexivity).
  exists req. split; [exact Hsent |].
  split; [rewrite Hreq; reflexivity |].
  split; [exact Htimeout |].
  exact (Hkeys "timeout" Htimeout).
Defined.

Lemma run_keeps_config (transport : Request -> outcome Response)
    (op : Operation) : keeps_config (run transport op).
Proof.
  destruct (run_shape op) as (method & path & kwargs & Hrun & _).
  rewrite Hrun. apply keeps_config__request.
Qed.

(** X3.  However many operations are run on a client, and whatever each
    of them returns or raises, the stored configuration stays what it was,
    the requests sent before stay in place, and exactly one request is
    added per operation: nothing is retried and nothing is answered
    without a round trip. *)
Theorem operations_keep_configuration
    (transport : Request -> outcome Response) (ops : list Operation)
    (self : CogmemAi) :
  config (after_operations transport ops self) = config self /\
  exists added,
    sent (_session (after_operations transport ops self))
    = (sent (_session self) ++ added)%list /\
    length added = length ops.
Proof.
  revert self. induction ops as [|op rest IH]; intros self; simpl.
  - split; [reflexivity |]. exists []. now rewrite app_nil_r.
  - destruct (IH (snd (run transport op self))) as [Hconfig [added [Hs Hl]]].
    split; [rewrite Hconfig; apply run_keeps_config |].
    destruct (run_sends transport op self)
      as (method & path & kwargs & _ & Hsent & _).
    exists (outgoing self method path kwargs :: added).
    rewrite Hs, Hsent, <- app_assoc. simpl. now rewrite Hl.
Qed.

(** X4.  What an operation returns or raises depends on the response
    alone: two operations, on whatever clients and with whatever
    arguments, that meet the same response end the same way. *)
Theorem result_depends_on_response_only (resp : Response)
    (op1 op2 : Operation) (self1 self2 : CogmemAi) :
  fst (run (answering resp) op1 self1) = fst (run (answering resp) op2 self2).
Proof.
  destruct (run_shape op1) as (m1 & p1 & k1 & Hrun1 & _).
  destruct (run_shape op2) as (m2 & p2 & k2 & Hrun2 & _).
  rewrite Hrun1, Hrun2.
  rewrite (_request_result (answering resp) m1 p1 k1 self1 resp eq_refl).
  rewrite (_request_result (answering resp) m2 p2 k2 self2 resp eq_refl).
  reflexivity.
Qed.

(** X5.  A failure of the transport (a timeout, a refused connection)
    reaches the caller of any operation as it is, not wrapped in
    [CogmemAiError]; the request still counts as sent, once. *)
Theorem transport_failure_propagates
    (transport : Request -> outcome Response) (e : exn) (op : Operation)
    (self : CogmemAi) :
  (forall req, transport req = Raises e) ->
  fst (run transport op self) = Raises e /\
  length (sent (_session (snd (run transport op self))))
  = S (length (sent (_session self))).
Proof.
  intros Hdown.
  destruct (run_sends transport op self)
    as (method & path & kwargs & Hrun & Hsent & _).
  split.
  - rewrite Hrun. apply _request_transport_failure, Hdown.
  - rewrite Hsent, length_app. simpl. lia.
Qed.

Lemma transport_failure_propagates_witness :
  (forall req, failing (TransportError "timed out") req
               = Raises (TransportError "timed out")) /\
  fst (run (failing (TransportError "timed out")) Op_get_usage sample_client)
  = Raises (TransportError "timed out") /\
  length (sent (_session
                  (snd (run (failing (TransportError "timed out"))
                          Op_get_usage sample_client))))
  = 1%nat.
Proof.
  assert (Hdown : forall req, failing (TransportError "timed out") req
                              = Raises (TransportError "timed out"))
    by (intros req; reflexivity).
  split; [exact Hdown |].
  exact (transport_failure_propagates (failing (TransportError "timed out"))
           (TransportError "timed out") Op_get_usage sample_client Hdown).
Defined.

(** X6.  Reading the outcome of [_request] backwards, for a request that
    met a response.  A returned value is the decoded body of a response
    with status below 400.  A [CogmemAiError] always carries the status
    code of the response, never [None], and is raised only for a body that
    does not decode or a status of at least 400.  The [ValueError] of the
    decoder never escapes. *)
Theorem request_outcome_inversion
    (transport : Request -> outcome Response) (method path : string)
    (kwargs : gmap string pyval) (self : CogmemAi) (resp : Response) :
  transport (outgoing self method path kwargs) = Returns resp ->
  (forall v, fst (_request transport method path kwargs self) = Returns v ->
             json resp = Some v /\ status_code resp < 400) /\
  (forall msg code,
      fst (_request transport method path kwargs self)
      = Raises (CogmemAiError msg code) ->
      code = Some (status_code resp) /\
      (json resp = None \/ 400 <= status_code resp)) /\
  (forall msg,
      fst (_request transport method path kwargs self)
      <> Raises (ValueError msg)).
Proof.
  intros Hsend. rewrite (_request_result _ _ _ _ _ _ Hsend).
  destruct (json resp) as [data|].
  - destruct (Z.leb_spec 400 (status_code resp)) as [Hhigh|Hlow].
    + destruct data; simpl;
        repeat match goal with
               | |- context [truthy ?v] => destruct (truthy v)
               end;
        (split; [intros v [=] | split; [intros msg code [=] | intros msg [=]]]);
        subst; auto.
    + split; [intros v [= <-]; auto | split; [intros msg code [=] | intros msg [=]]].
  - split; [intros v [=] | split; [intros msg code [= _ <-] | intros msg [=]]].
    auto.
Qed.

Lemma request_outcome_inversion_witness :
  answering resp_ok_array (outgoing sample_client "GET" "export" ∅)
  = Returns resp_ok_array /\
  fst (_request (answering resp_ok_array) "GET" "export" ∅ sample_client)
  = Returns (PyList [PyInt 1; PyInt 2]) /\
  json resp_ok_array = Some (PyList [PyInt 1; PyInt 2]) /\
  status_code resp_ok_array < 400.
Proof.
  split; [reflexivity | split; [reflexivity |]].
  exact (proj1 (request_outcome_inversion (answering resp_ok_array) "GET"
                  "export" ∅ sample_client resp_ok_array eq_refl)
           (PyList [PyInt 1; PyInt 2]) eq_refl).
Defined.

(** X7.  [_request] hands the caller's keyword arguments to the session
    as they are and adds the client's timeout only when the caller gave
    none: a [timeout] among the keyword arguments wins over the stored
    one. *)
Theorem request_timeout_is_a_default
    (transport : Request -> outcome Response) (method path : string)
    (kwargs : gmap string pyval) (self : CogmemAi) :
  exists req,
    sent (_session (snd (_request transport method path kwargs self)))
    = (sent (_session self) ++ [req])%list /\
    req_method req = method /\
    (forall key, key <> "timeout" ->
                 req_kwargs req !! key = kwargs !! key) /\
    (forall v, kwargs !! "timeout" = Some v ->
               req_kwargs req !! "timeout" = Some v) /\
    (kwargs !! "timeout" = None ->
     req_kwargs req !! "timeout" = Some (PyInt (timeout self))).
Proof.
  exists (outgoing self method path kwargs).
  split; [apply _request_trace |]. split; [reflexivity |].
  unfold outgoing. simpl. split; [| split].
  - intros key Hne. apply setdefault_lookup_ne. congruence.
  - intros v Hv. now apply setdefault_lookup_present.
  - intros Hnone. now apply setdefault_lookup_absent.
Qed.

Lemma request_timeout_is_a_default_witness :
  exists req,
    sent (_session
            (snd (_request (answering resp_ok_array) "GET" "usage"
                    {["timeout" := PyInt 5]} sample_client)))
    = (sent (_session sample_client) ++ [req])%list /\
    req_kwargs req !! "timeout" = Some (PyInt 5).
Proof.
  destruct (request_timeout_is_a_default (answering resp_ok_array) "GET"
              "usage" {["timeout" := PyInt 5]} sample_client)
    as (req & Hsent & _ & _ & Hgiven & _).
  exists req. split; [exact Hsent |].
  apply Hgiven. reflexivity.
Defined.

(** The requests on the wire after a sequence of operations: those that
    were there, and requests built from the configuration of the client. *)
Lemma after_operations_sent (transport : Request -> outcome Response)
    (ops : list Operation) (self : CogmemAi) (req : Request) :
  In req (sent (_session (after_operations transport ops self))) ->
  In req (sent (_session self)) \/
  (req_headers req = headers (_session self) /\
   req_kwargs req !! "timeout" = Some (PyInt (timeout self)) /\
   exists path, req_url req = base_url self +:+ "/cogmemai/" +:+ path).
Proof.
  revert self. induction ops as [|op rest IH]; intros self; simpl.
  - now left.
  - intros Hin. apply IH in Hin.
    pose proof (run_keeps_config transport op self) as Hconfig.
    unfold config in Hconfig. injection Hconfig as _ Hb Ht Hh.
    rewrite Hb, Ht, Hh in Hin.
    destruct Hin as [Hin | Hnew]; [| now right].
    destruct (run_sends transport op self)
      as (method & path & kwargs & _ & Hsent & Htimeout & _).
    rewrite Hsent in Hin. apply in_app_or in Hin as [Hold | [<- | []]].
    + now left.
    + right. split; [reflexivity |]. split.
      * unfold outgoing. simpl. now apply setdefault_lookup_absent.
      * exists path. reflexivity.
Qed.

(** X8.  Every request a client sends, in any sequence of operations
    after its construction, carries the bearer authorization header built
    from the credential and the JSON content type, whatever the library's
    own defaults for these two headers were; the library's other default
    headers are kept; and the request carries the timeout given at
    construction. *)
Theorem constructed_client_requests
    (library_headers : gmap string string)
    (transport : Request -> outcome Response) (k : string)
    (b : option string) (t : Z) (self : CogmemAi) (ops : list Operation)
    (req : Request) :
  __init__ library_headers k b t = Returns self ->
  In req (sent (_session (after_operations transport ops self))) ->
  req_headers req !! "Authorization" = Some ("Bearer " +:+ k) /\
  req_headers req !! "Content-Type" = Some "application/json" /\
  (forall h, h <> "Authorization" -> h <> "Content-Type" ->
             req_headers req !! h = library_headers !! h) /\
  req_kwargs req !! "timeout" = Some (PyInt t).
Proof.
  intros Hinit Hin. apply after_operations_sent in Hin.
  unfold __init__ in Hinit.
  destruct (negb (nonempty k) || negb (String.prefix "cm_" k));
    [discriminate |].
  injection Hinit as <-. simpl in Hin.
  destruct Hin as [[] | (-> & -> & _)].
  split; [apply lookup_insert_eq |].
  split; [rewrite lookup_insert_ne by discriminate; apply lookup_insert_eq |].
  split; [| reflexivity].
  intros h Ha Hc. rewrite !lookup_insert_ne by congruence. reflexivity.
Qed.

Lemma constructed_client_requests_witness :
  __init__ ∅ "cm_test" (Some "https://x/api/") 30 = Returns sample_client /\
  (exists req,
      In req (sent (_session
                      (after_operations (answering resp_ok_array)
                         sample_operations sample_client))) /\
      req_method req = "PATCH" /\
      req_headers req !! "Authorization" = Some "Bearer cm_test" /\
      req_kwargs req !! "timeout" = Some (PyInt 30)).
Proof.
  split; [reflexivity |].
  exists (outgoing sample_client "PATCH" "memory/7"
            {["json" := PyDict (<["importance" := PyInt 9]> ∅)]}).
  assert (Hin : In (outgoing sample_client "PATCH" "memory/7"
                      {["json" := PyDict (<["importance" := PyInt 9]> ∅)]})
                   (sent (_session
                            (after_operations (answering resp_ok_array)
                               sample_operations sample_client))))
    by (right; left; reflexivity).
  split; [exact Hin | split; [reflexivity |]].
  destruct (constructed_client_requests ∅ (answering resp_ok_array)
              "cm_test" (Some "https://x/api/") 30 sample_client
              sample_operations _ eq_refl Hin) as (Hauth & _ & _ & Htimeout).
  split; [exact Hauth | exact Htimeout].
Defined.

(** ** Payloads, operation by operation *)

Lemma nonempty_supplied (s : string) (d : gmap string pyval) (key : string) :
  d !! key = None ->
  (if nonempty s then <[key := PyStr s]> d else d) !! key = supplied s.
Proof.
  intros Hd. unfold nonempty, supplied.
  destruct (String.eqb_spec s "") as [->|Hne]; simpl.
  - exact Hd.
  - rewrite decide_False by exact Hne. apply lookup_insert_eq.
Qed.

Lemma nonempty_other (s : string) (d : gmap string pyval)
    (key other : string) :
  key <> other ->
  (if nonempty s then <[key := PyStr s]> d else d) !! other = d !! other.
Proof.
  intros Hne. destruct (nonempty s); [now apply lookup_insert_ne | reflexivity].
Qed.


(** Opens the statement about an operation built on a verb wrapper: the
    request is the one [_request] sends, and its keyword argument is the
    payload. *)
Ltac open_operation verb path arg :=
  eexists (outgoing _ verb path {[arg := PyDict _]}), _;
  split; [apply _request_trace |];
  split; [reflexivity |]; split; [reflexivity |];
  split; [now apply outgoing_kwarg |].

(** Bounds the keys of a payload, by cases on which optional arguments
    are empty. *)
Ltac dom_payload :=
  unfold nonempty;
  repeat match goal with
         | |- context [String.eqb ?s ""] => destruct (String.eqb s "")
         end;
  simpl negb; cbv iota;
  rewrite ?dom_insert_L, ?dom_empty_L;
  apply elem_of_subseteq; intros ?;
  rewrite ?elem_of_union, ?elem_of_singleton, ?elem_of_empty; tauto.

(** Looks a key up in a payload of nested inserts. *)
Ltac lookup_payload :=
  repeat first
    [ rewrite nonempty_supplied
    | rewrite nonempty_other by discriminate
    | rewrite lookup_insert_eq
    | rewrite lookup_insert_ne by discriminate
    | rewrite lookup_empty ];
  try reflexivity.

(** X9.  [update_memory] sends a PATCH to [memory/<id>] whose body holds
    [content] exactly when a non-empty content was given, [importance]
    exactly when an importance was given (an importance of 0 is sent), and
    [scope] exactly when a non-empty scope was given, each with the given
    value, and nothing else; with no field given the body is the empty
    object and the request is sent all the same. *)
Theorem update_memory_payload (transport : Request -> outcome Response)
    (self : CogmemAi) (memory_id : Z) (content : string)
    (importance : option Z) (scope : string) :
  exists req payload,
    sent (_session
            (snd (update_memory transport memory_id content importance scope
                    self)))
    = (sent (_session self) ++ [req])%list /\
    req_method req = "PATCH" /\
    req_url req
    = base_url self +:+ "/cogmemai/" +:+ "memory/" +:+ pretty memory_id /\
    req_kwargs req !! "json" = Some (PyDict payload) /\
    payload !! "content" = supplied content /\
    payload !! "importance" = PyInt <$> importance /\
    payload !! "scope" = supplied scope /\
    dom payload ⊆ {["content"; "importance"; "scope"]}.
Proof.
  unfold update_memory, _patch.
  open_operation "PATCH" ("memory/" +:+ pretty memory_id) "json".
  split; [| split; [| split]].
  - destruct importance; lookup_payload.
  - destruct importance; lookup_payload.
  - destruct importance; lookup_payload.
  - destruct importance; dom_payload.
Qed.

(** X10.  [recall_memories] posts to [recall] a body that always holds
    [query], [limit] and [scope] with the given values, holds
    [memory_type] exactly when a non-empty type was given, and holds
    nothing else. *)
Theorem recall_memories_payload (transport : Request -> outcome Response)
    (self : CogmemAi) (query : string) (limit : Z)
    (memory_type scope : string) :
  exists req payload,
    sent (_session
            (snd (recall_memories transport query limit memory_type scope
                    self)))
    = (sent (_session self) ++ [req])%list /\
    req_method req = "POST" /\
    req_url req = base_url self +:+ "/cogmemai/" +:+ "recall" /\
    req_kwargs req !! "json" = Some (PyDict payload) /\
    payload !! "query" = Some (PyStr query) /\
    payload !! "limit" = Some (PyInt limit) /\
    payload !! "scope" = Some (PyStr scope) /\
    payload !! "memory_type" = supplied memory_type /\
    dom payload ⊆ {["query"; "limit"; "scope"; "memory_type"]}.
Proof.
  unfold recall_memories, _post.
  open_operation "POST" "recall" "json".
  repeat (split; [lookup_payload |]). dom_payload.
Qed.

(** X11.  [extract_memories] posts to [extract] a body that always holds
    [user_message], holds [assistant_response] and [previous_context]
    each exactly when given non-empty, and holds nothing else. *)
Theorem extract_memories_payload (transport : Request -> outcome Response)
    (self : CogmemAi) (user_message assistant_response
    previous_context : string) :
  exists req payload,
    sent (_session
            (snd (extract_memories transport user_message assistant_response
                    previous_context self)))
    = (sent (_session self) ++ [req])%list /\
    req_method req = "POST" /\
    req_url req = base_url self +:+ "/cogmemai/" +:+ "extract" /\
    req_kwargs req !! "json" = Some (PyDict payload) /\
    payload !! "user_message" = Some (PyStr user_message) /\
    payload !! "assistant_response" = supplied assistant_response /\
    payload !! "previous_context" = supplied previous_context /\
    dom payload
    ⊆ {["user_message"; "assistant_response"; "previous_context"]}.
Proof.
  unfold extract_memories, _post.
  open_operation "POST" "extract" "json".
  repeat (split; [lookup_payload |]). dom_payload.
Qed.

(** X12.  [get_project_context] sends a GET to [context] whose query
    parameters always hold [include_global], as the lower-case text
    [true] or [false] and not as a boolean, hold [project_id] and
    [context] each exactly when given non-empty, and hold nothing else. *)
Theorem get_project_context_params
    (transport : Request -> outcome Response) (self : CogmemAi)
    (project_id : string) (include_global : bool) (context : string) :
  exists req params,
    sent (_session
            (snd (get_project_context transport project_id include_global
                    context self)))
    = (sent (_session self) ++ [req])%list /\
    req_method req = "GET" /\
    req_url req = base_url self +:+ "/cogmemai/" +:+ "context" /\
    req_kwargs req !! "params" = Some (PyDict params) /\
    params !! "include_global"
    = Some (PyStr (if include_global then "true" else "false")) /\
    params !! "project_id" = supplied project_id /\
    params !! "context" = supplied context /\
    dom params ⊆ {["include_global"; "project_id"; "context"]}.
Proof.
  unfold get_project_context, _get.
  open_operation "GET" "context" "params".
  repeat (split; [lookup_payload |]). dom_payload.
Qed.

(** X13.  [ingest_document] posts to [ingest] a body that always holds
    [text], holds [document_type] and [project_id] each exactly when
    given non-empty, and holds nothing else. *)
Theorem ingest_document_payload (transport : Request -> outcome Response)
    (self : CogmemAi) (text document_type project_id : string) :
  exists req payload,
    sent (_session
            (snd (ingest_document transport text document_type project_id
                    self)))
    = (sent (_session self) ++ [req])%list /\
    req_method req = "POST" /\
    req_url req = base_url self +:+ "/cogmemai/" +:+ "ingest" /\
    req_kwargs req !! "json" = Some (PyDict payload) /\
    payload !! "text" = Some (PyStr text) /\
    payload !! "document_type" = supplied document_type /\
    payload !! "project_id" = supplied project_id /\
    dom payload ⊆ {["text"; "document_type"; "project_id"]}.
Proof.
  unfold ingest_document, _post.
  open_operation "POST" "ingest" "json".
  repeat (split; [lookup_payload |]). dom_payload.
Qed.

(** X14.  [save_session_summary] posts to [session-summary] a body that
    always holds [summary], holds [project_id] exactly when given
    non-empty, and holds nothing else. *)
Theorem save_session_summary_payload
    (transport : Request -> outcome Response) (self : CogmemAi)
    (summary project_id : string) :
  exists req payload,
    sent (_session
            (snd (save_session_summary transport summary project_id self)))
    = (sent (_session self) ++ [req])%list /\
    req_method req = "POST" /\
    req_url req = base_url self +:+ "/cogmemai/" +:+ "session-summary" /\
    req_kwargs req !! "json" = Some (PyDict payload) /\
    payload !! "summary" = Some (PyStr summary) /\
    payload !! "project_id" = supplied project_id /\
    dom payload ⊆ {["summary"; "project_id"]}.
Proof.
  unfold save_session_summary, _post.
  open_operation "POST" "session-summary" "json".
  repeat (split; [lookup_payload |]). dom_payload.
Qed.

(** X15.  [get_team_members] sends a GET to [team/members] whose query
    parameters are always a dictionary, empty when no project is given
    and holding [project_id] alone otherwise. *)
Theorem get_team_members_params (transport : Request -> outcome Response)
    (self : CogmemAi) (project_id : string) :
  exists req params,
    sent (_session (snd (get_team_members transport project_id self)))
    = (sent (_session self) ++ [req])%list /\
    req_method req = "GET" /\
    req_url req = base_url self +:+ "/cogmemai/" +:+ "team/members" /\
    req_kwargs req !! "params" = Some (PyDict params) /\
    params !! "project_id" = supplied project_id /\
    dom params ⊆ {["project_id"]}.
Proof.
  unfold get_team_members, _get.
  open_operation "GET" "team/members" "params".
  repeat (split; [lookup_payload |]). dom_payload.
Qed.

(** X16.  [invite_team_member] posts to [team/invite] a body with exactly
    the keys [email], [project_id] and [role], each bound to the argument
    of that name, empty or not. *)
Theorem invite_team_member_payload
    (transport : Request -> outcome Response) (self : CogmemAi)
    (email project_id role : string) :
  exists req payload,
    sent (_session
            (snd (invite_team_member transport email project_id role self)))
    = (sent (_session self) ++ [req])%list /\
    req_method req = "POST" /\
    req_url req = base_url self +:+ "/cogmemai/" +:+ "team/invite" /\
    req_kwargs req !! "json" = Some (PyDict payload) /\
    payload !! "email" = Some (PyStr email) /\
    payload !! "project_id" = Some (PyStr project_id) /\
    payload !! "role" = Some (PyStr role) /\
    dom payload = {["email"; "project_id"; "role"]}.
Proof.
  unfold invite_team_member, _post.
  open_operation "POST" "team/invite" "json".
  repeat (split; [lookup_payload |]).
  rewrite !dom_insert_L, dom_empty_L. set_solver.
Qed.

(** X17.  [link_memories] posts to [memory/<id>/link], the source memory
    in the path, a body with exactly the keys [related_memory_id] and
    [relationship_type], bound to the target memory and to the
    relationship given. *)
Theorem link_memories_payload (transport : Request -> outcome Response)
    (self : CogmemAi) (memory_id related_memory_id : Z)
    (relationship_type : string) :
  exists req payload,
    sent (_session
            (snd (link_memories transport memory_id related_memory_id
                    relationship_type self)))
    = (sent (_session self) ++ [req])%list /\
    req_method req = "POST" /\
    req_url req
    = base_url self +:+ "/cogmemai/" +:+ "memory/" +:+ pretty memory_id
      +:+ "/link" /\
    req_kwargs req !! "json" = Some (PyDict payload) /\
    payload !! "related_memory_id" = Some (PyInt related_memory_id) /\
    payload !! "relationship_type" = Some (PyStr relationship_type) /\
    dom payload = {["related_memory_id"; "relationship_type"]}.
Proof.
  unfold link_memories, _post.
  open_operation "POST" ("memory/" +:+ pretty memory_id +:+ "/link") "json".
  repeat (split; [lookup_payload |]).
  rewrite !dom_insert_L, dom_empty_L. set_solver.
Qed.

(** X18.  Export followed by import.  When the export succeeds with an
    object that has a [memories] array, [export_memories] returns that
    object, and [import_memories] called with the array posts to [import]
    a body whose only key, [memories], is bound to that same array: the
    two requests are the only ones sent, in this order. *)
Theorem export_then_import (transport : Request -> outcome Response)
    (self : CogmemAi) (resp : Response) (body : gmap string pyval)
    (memories : list pyval) :
  transport (outgoing self "GET" "export" {["params" := PyNone]})
  = Returns resp ->
  json resp = Some (PyDict body) ->
  status_code resp < 400 ->
  body !! "memories" = Some (PyList memories) ->
  fst (export_memories transport self) = Returns (PyDict body) /\
  exists get post payload,
    sent (_session
            (snd (import_memories transport memories
                    (snd (export_memories transport self)))))
    = (sent (_session self) ++ [get; post])%list /\
    req_method get = "GET" /\
    req_url get = base_url self +:+ "/cogmemai/" +:+ "export" /\
    req_method post = "POST" /\
    req_url post = base_url self +:+ "/cogmemai/" +:+ "import" /\
    req_kwargs post !! "json" = Some (PyDict payload) /\
    payload !! "memories" = Some (PyList memories) /\
    dom payload = {["memories"]}.
Proof.
  intros Hsend Hjson Hstatus Hmem.
  unfold export_memories, import_memories, _get, _post. simpl of_optional_dict.
  split.
  - rewrite (_request_result _ _ _ _ _ _ Hsend), Hjson.
    apply Z.leb_gt in Hstatus. now rewrite Hstatus.
  - pose proof (keeps_config__request transport "GET" "export"
                  {["params" := PyNone]} self) as Hconfig.
    unfold config in Hconfig. injection Hconfig as _ Hb _ _.
    eexists (outgoing self "GET" "export" {["params" := PyNone]}),
            (outgoing _ "POST" "import" {["json" := PyDict _]}), _.
    split; [rewrite !_request_trace, <- app_assoc; reflexivity |].
    split; [reflexivity |]. split; [reflexivity |]. split; [reflexivity |].
    split; [simpl; now rewrite Hb |].
    split; [now apply outgoing_kwarg |].
    split; [apply lookup_insert_eq |].
    rewrite dom_insert_L, dom_empty_L. set_solver.
Qed.

Lemma export_then_import_witness :
  answering resp_export
    (outgoing sample_client "GET" "export" {["params" := PyNone]})
  = Returns resp_export /\
  json resp_export = Some (PyDict body_export) /\
  status_code resp_export < 400 /\
  body_export !! "memories" = Some (PyList exported_memories) /\
  fst (export_memories (answering resp_export) sample_client)
  = Returns (PyDict body_export) /\
  exists get post payload,
    sent (_session
            (snd (import_memories (answering resp_export) exported_memories
                    (snd (export_memories (answering resp_export)
                            sample_client)))))
    = [get; post] /\
    req_kwargs post !! "json" = Some (PyDict payload) /\
    payload !! "memories" = Some (PyList exported_memories).
Proof.
  assert (Hstatus : status_code resp_export < 400) by (simpl; lia).
  split; [reflexivity | split; [reflexivity | split; [exact Hstatus |]]].
  split; [reflexivity |].
  destruct (export_then_import (answering resp_export) sample_client
              resp_export body_export exported_memories
              eq_refl eq_refl Hstatus eq_refl)
    as (Hout & get & post & payload & Hsent & _ & _ & _ & _ & Hjson & Hmem
        & _).
  split; [exact Hout |].
  exists get, post, payload.
  split; [exact Hsent | split; [exact Hjson | exact Hmem]].
Defined.

(** ** More on strings and URLs *)

Lemma append_length (s t : string) :
  String.length (s +:+ t) = (String.length s + String.length t)%nat.
Proof.
  induction s as [|a s IH]; [reflexivity |].
  rewrite append_cons. simpl. now rewrite IH.
Qed.

Lemma append_cancel_l (s a b : string) : s +:+ a = s +:+ b -> a = b.
Proof.
  induction s as [|c s IH]; rewrite ?append_empty_l, ?append_cons.
  - auto.
  - intros [= H]. auto.
Qed.

Lemma append_cancel_r (a b t : string) : a +:+ t = b +:+ t -> a = b.
Proof.
  revert b. induction a as [|c a IH]; intros [|d b];
    rewrite ?append_empty_l, ?append_cons; intros H.
  - reflexivity.
  - apply (f_equal String.length) in H. simpl in H.
    rewrite append_length in H. lia.
  - apply (f_equal String.length) in H. simpl in H.
    rewrite append_length in H. lia.
  - injection H as -> H. f_equal. now apply IH.
Qed.

Lemma all_in_replicate (n : nat) : all_in "/" (replicate_char n "/") = true.
Proof. induction n as [|n IH]; [reflexivity | simpl; exact IH]. Qed.

Lemma rstrip_all_in (chars t : string) :
  all_in chars t = true -> rstrip chars t = EmptyString.
Proof.
  induction t as [|a t IH]; [reflexivity |].
  simpl. intros [Ha Ht]%andb_prop. now rewrite (IH Ht), Ha.
Qed.

(** Appending stripped characters does not change what [rstrip] keeps. *)
Lemma rstrip_append_stripped (chars s t : string) :
  all_in chars t = true -> rstrip chars (s +:+ t) = rstrip chars s.
Proof.
  intros Ht. induction s as [|a s IH].
  - rewrite append_empty_l. now apply rstrip_all_in.
  - rewrite append_cons. simpl. now rewrite IH.
Qed.

(** [rstrip] cuts off nothing but stripped characters. *)
Lemma rstrip_split (chars s : string) :
  exists t, s = rstrip chars s +:+ t /\ all_in chars t = true.
Proof.
  induction s as [|a s (t & Hs & Ht)].
  - exists EmptyString. split; reflexivity.
  - destruct (rstrip chars s) as [|b kept] eqn:E.
    + rewrite (rstrip_cons_empty _ _ _ E). rewrite append_empty_l in Hs.
      destruct (char_in a chars) eqn:Ha.
      * exists (String a t). rewrite append_empty_l. split; [congruence |].
        simpl. now rewrite Ha.
      * exists t. rewrite append_cons, append_empty_l. split; congruence.
    + rewrite (rstrip_cons_kept _ _ _ _ _ E).
      exists t. rewrite append_cons. split; congruence.
Qed.

(** A string that does not end with a stripped character is kept whole. *)
Lemma rstrip_fixed (chars p : string) :
  (forall a, ends_with p a -> char_in a chars = false) ->
  rstrip chars p = p.
Proof.
  induction p as [|c p IH]; intros Hend; [reflexivity |].
  assert (Hp : rstrip chars p = p).
  { apply IH. intros a [front ->]. apply Hend.
    exists (String c front). now rewrite append_cons. }
  simpl. rewrite Hp. destruct p as [|d p]; [| reflexivity].
  rewrite (Hend c); [reflexivity |].
  exists EmptyString. reflexivity.
Qed.

(** X19.  The stored root of a client does not depend on how many slashes
    end the base URL it was built with: a non-empty base URL and the same
    base URL with any number of slashes appended give the same client,
    and so the same request URLs. *)
Theorem init_ignores_trailing_slashes
    (library_headers : gmap string string) (k b : string) (t : Z)
    (n : nat) :
  b <> "" ->
  __init__ library_headers k (Some (b +:+ replicate_char n "/")) t
  = __init__ library_headers k (Some b) t.
Proof.
  intros Hb. unfold __init__.
  assert (Hlong : nonempty (b +:+ replicate_char n "/") = true).
  { apply nonempty_iff. destruct b as [|c b]; [congruence |].
    rewrite append_cons. discriminate. }
  apply nonempty_iff in Hb. rewrite Hlong, Hb.
  rewrite rstrip_append_stripped by apply all_in_replicate.
  reflexivity.
Qed.

Lemma init_ignores_trailing_slashes_witness :
  "https://x/api" <> "" /\
  __init__ ∅ "cm_test" (Some "https://x/api///") 30
  = __init__ ∅ "cm_test" (Some "https://x/api") 30.
Proof.
  assert (Hne : "https://x/api" <> "") by discriminate.
  split; [exact Hne |].
  exact (init_ignores_trailing_slashes ∅ "cm_test" "https://x/api" 30 3 Hne).
Defined.

(** X20.  What [rstrip] computes, in full: [p] is [s.rstrip(chars)]
    exactly when [s] is [p] followed by characters of [chars] only and [p]
    does not itself end with a character of [chars].  In particular the
    result is the same when [rstrip] is applied again. *)
Theorem rstrip_characterisation (chars s p : string) :
  rstrip chars s = p <->
  (exists t, s = p +:+ t /\ all_in chars t = true) /\
  (forall a, ends_with p a -> char_in a chars = false).
Proof.
  split.
  - intros <-. split; [apply rstrip_split |].
    intros a. apply rstrip_no_trailing.
  - intros [(t & -> & Ht) Hend].
    rewrite rstrip_append_stripped by exact Ht.
    now apply rstrip_fixed.
Qed.

Lemma rstrip_characterisation_witness :
  rstrip "/" "https://x/api//" = "https://x/api" /\
  (exists t, "https://x/api//" = "https://x/api" +:+ t /\
             all_in "/" t = true) /\
  (forall a, ends_with "https://x/api" a -> char_in a "/" = false).
Proof.
  split; [reflexivity |].
  exact (proj1 (rstrip_characterisation "/" "https://x/api//" "https://x/api")
           eq_refl).
Defined.

(** A path with an identifier in it names the identifier. *)
Lemma id_url_inj (root before after : string) (id1 id2 : Z) :
  root +:+ "/cogmemai/" +:+ before +:+ pretty id1 +:+ after
  = root +:+ "/cogmemai/" +:+ before +:+ pretty id2 +:+ after ->
  id1 = id2.
Proof.
  intros H. do 3 apply append_cancel_l in H.
  apply append_cancel_r in H. now apply (inj pretty) in H.
Qed.

Lemma id_url_end_inj (root before : string) (id1 id2 : Z) :
  root +:+ "/cogmemai/" +:+ before +:+ pretty id1
  = root +:+ "/cogmemai/" +:+ before +:+ pretty id2 ->
  id1 = id2.
Proof.
  intros H. do 3 apply append_cancel_l in H. now apply (inj pretty) in H.
Qed.

(** Reduces a difference of wire records after one call each to a
    difference of the two URLs. *)
Ltac last_urls_differ Hne :=
  rewrite !_request_trace, !map_app; simpl map;
  let Heq := fresh "Heq" in
  intros Heq; apply app_inv_head in Heq; injection Heq as Heq;
  apply Hne;
  first [ exact (id_url_end_inj _ _ _ _ Heq) | exact (id_url_inj _ _ _ _ _ Heq) ].

(** X21.  Operations that address a record by its identifier send
    requests for different identifiers to different URLs, whatever their
    other arguments: deleting, updating, promoting or linking one memory,
    or reading its versions or links, never goes to the URL of another
    memory, and removing one team member never goes to the URL of
    another. *)
Theorem identifiers_address_distinct_urls
    (transport : Request -> outcome Response) (self : CogmemAi)
    (id1 id2 : Z) :
  id1 <> id2 ->
  map req_url (sent (_session (snd (delete_memory transport id1 self))))
  <> map req_url (sent (_session (snd (delete_memory transport id2 self)))) /\
  (forall c1 i1 s1 c2 i2 s2,
      map req_url
        (sent (_session (snd (update_memory transport id1 c1 i1 s1 self))))
      <> map req_url
           (sent (_session (snd (update_memory transport id2 c2 i2 s2 self))))) /\
  map req_url
    (sent (_session (snd (get_memory_versions transport id1 self))))
  <> map req_url
       (sent (_session (snd (get_memory_versions transport id2 self)))) /\
  map req_url (sent (_session (snd (get_memory_links transport id1 self))))
  <> map req_url
       (sent (_session (snd (get_memory_links transport id2 self)))) /\
  map req_url (sent (_session (snd (promote_to_global transport id1 self))))
  <> map req_url
       (sent (_session (snd (promote_to_global transport id2 self)))) /\
  (forall r1 k1 r2 k2,
      map req_url
        (sent (_session (snd (link_memories transport id1 r1 k1 self))))
      <> map req_url
           (sent (_session (snd (link_memories transport id2 r2 k2 self))))) /\
  map req_url (sent (_session (snd (remove_team_member transport id1 self))))
  <> map req_url
       (sent (_session (snd (remove_team_member transport id2 self)))).
Proof.
  intros Hne.
  unfold delete_memory, update_memory, get_memory_versions, get_memory_links,
    promote_to_global, link_memories, remove_team_member,
    _get, _post, _patch, _delete.
  repeat split; intros; last_urls_differ Hne.
Qed.

Lemma identifiers_address_distinct_urls_witness :
  7 <> 8 /\
  map req_url
    (sent (_session
             (snd (delete_memory (answering resp_ok_array) 7 sample_client))))
  <> map req_url
       (sent (_session
                (snd (delete_memory (answering resp_ok_array) 8
                        sample_client)))).
Proof.
  assert (Hne : 7 <> 8) by lia.
  split; [exact Hne |].
  exact (proj1 (identifiers_address_distinct_urls (answering resp_ok_array)
                  sample_client 7 8 Hne)).
Defined.
